(** * Shallow embedding of [run.py]: the training-loop controller

    [train_network] (run.py, lines 14-146) and the entry point [run]
    (lines 149-184) are embedded as Rocq functions.  Python exceptions are
    values of [result]; the calls that [train_network] makes to its
    collaborators are recorded, in order, in a call log carried next to the
    result.  Recorded losses are binary64 floats ([PrimFloat.float]), the
    metric store is a dictionary of dictionaries of lists, as in the code. *)

From Stdlib Require Import ZArith List Bool PrimFloat Lia.
From stdpp Require Import gmap strings list fin_maps.

Local Open Scope Z_scope.
Set Warnings "-inexact-float".

(** ** Exceptions and logged computations *)

Inductive exn : Type :=
| ConfigurationError
| KeyError (key : string)
| IndexError
| ValueError
| RuntimeError
| BackendError (code : Z).

Inductive result (A : Type) : Type :=
| OK (a : A)
| Raise (e : exn).
Arguments OK {A} a.
Arguments Raise {A} e.

(** A computation that may raise and that logs events of type [E]. *)
Definition logged (E A : Type) : Type := (result A * list E)%type.

Definition ret {E A} (a : A) : logged E A := (OK a, []).

Definition bind {E A B} (m : logged E A) (f : A -> logged E B) : logged E B :=
  match m with
  | (OK a, l1) => let '(r, l2) := f a in (r, l1 ++ l2)
  | (Raise e, l1) => (Raise e, l1)
  end.

Definition tell {E} (ev : E) : logged E unit := (OK tt, [ev]).

Definition lift {E A} (r : result A) : logged E A := (r, []).

Notation "'do' x <- m 'in' k" := (bind m (fun x => k))
  (at level 10, x name, m at level 100, k at level 200,
   format "'[v' 'do'  x  <-  m  'in' '/' k ']'").

(** ** Datasets (run.py, lines 39-46 and 60-70) *)

Inductive tv_class : Type := TV_MNIST | TV_CIFAR10 | TV_CIFAR100.

(** The local [tv_dataset] holds either a torchvision dataset class or,
    when no branch of lines 41-46 fires, the string it was given. *)
Inductive dataset_ref : Type :=
| TorchvisionClass (c : tv_class)
| DatasetName (s : string).

Definition resolve_dataset (dataset : string) : dataset_ref :=
  if String.eqb dataset "MNIST" then TorchvisionClass TV_MNIST
  else if String.eqb dataset "CIFAR10" then TorchvisionClass TV_CIFAR10
  else if String.eqb dataset "CIFAR100" then TorchvisionClass TV_CIFAR100
  else DatasetName dataset.

Definition is_class (d : dataset_ref) (c : tv_class) : bool :=
  match d, c with
  | TorchvisionClass TV_MNIST, TV_MNIST => true
  | TorchvisionClass TV_CIFAR10, TV_CIFAR10 => true
  | TorchvisionClass TV_CIFAR100, TV_CIFAR100 => true
  | _, _ => false
  end.

Definition is_name (d : dataset_ref) (s : string) : bool :=
  match d with
  | DatasetName s' => String.eqb s' s
  | TorchvisionClass _ => false
  end.

(** Lines 61-70: three successive [if]s over the defaults 28*28 and 10. *)
Definition io_sizes (tv_dataset : dataset_ref) : Z * Z :=
  let in_size := 28 * 28 in
  let out_size := 10 in
  let in_size := if is_class tv_dataset TV_CIFAR10 then 32 * 32 * 3 else in_size in
  let '(in_size, out_size) :=
    if is_class tv_dataset TV_CIFAR100 then (32 * 32 * 3, 100) else (in_size, out_size) in
  let '(in_size, out_size) :=
    if is_name tv_dataset "TIN" then (64 * 64 * 3, 200) else (in_size, out_size) in
  (in_size, out_size).

(** ** Optimizers (lines 88-103) *)

(** The two parameter partitions handed out by [model.get_fwd_params()] and
    [model.get_decor_params()]. *)
Inductive param_group : Type := FwdParams | DecorParams.

Inductive optimizer : Type :=
| Adam (params : param_group) (betas : float * float) (eps lr : float)
| SGD (params : param_group) (lr : float).

Definition optimizer_params (o : optimizer) : param_group :=
  match o with
  | Adam p _ _ _ => p
  | SGD p _ => p
  end.

Definition betas : float * float := (0.9%float, 0.999%float).
Definition eps : float := 1e-8%float.

Definition make_fwd_optimizer (optimizer_type : string) (fwd_lr : float)
  : option optimizer :=
  if String.eqb optimizer_type "Adam" then Some (Adam FwdParams betas eps fwd_lr)
  else if String.eqb optimizer_type "SGD" then Some (SGD FwdParams fwd_lr)
  else None.

Definition make_optimizers (optimizer_type : string) (fwd_lr : float)
    (decorrelation_method : option string) (decor_lr : float)
  : list (option optimizer) :=
  let fwd_optimizer := make_fwd_optimizer optimizer_type fwd_lr in
  let optimizers := [fwd_optimizer] in
  match decorrelation_method with
  | Some _ => optimizers ++ [Some (SGD DecorParams decor_lr)]
  | None => optimizers
  end.

(** What the constructors of [torch.optim] check before they build an
    optimizer.  [Adam]: [if not 0.0 <= lr], [if not 0.0 <= eps] and
    [if not 0.0 <= beta < 1.0] for both betas; [SGD]: [if lr < 0.0].  A
    NaN learning rate fails the first test and passes the last. *)
Definition optimizer_accepted (o : optimizer) : bool :=
  match o with
  | Adam _ (beta1, beta2) eps lr =>
      PrimFloat.leb 0 lr && PrimFloat.leb 0 eps
      && (PrimFloat.leb 0 beta1 && PrimFloat.ltb beta1 1)
      && (PrimFloat.leb 0 beta2 && PrimFloat.ltb beta2 1)
  | SGD _ lr => negb (PrimFloat.ltb lr 0)
  end.

(** The constructor calls of lines 91, 98 and 102: each raises a
    [ValueError] on a hyperparameter it does not accept; no constructor is
    called for an optimizer that stays [None]. *)
Definition construct_optimizers (optimizers : list (option optimizer))
  : result (list (option optimizer)) :=
  if forallb (fun o => match o with
                       | Some o => optimizer_accepted o
                       | None => true
                       end) optimizers
  then OK optimizers
  else Raise ValueError.

(** A learning rate that both constructors accept: a number that is at
    least zero. *)
Definition nonnegative_lr (lr : float) : bool :=
  PrimFloat.leb 0 lr && negb (PrimFloat.ltb lr 0).

(** ** Seeding (lines 35-37) *)

(** [torch.manual_seed(seed)]: the seed must lie between [-2^63] and
    [2^64 - 1], otherwise a [RuntimeError] is raised. *)
Definition torch_manual_seed (seed : Z) : result unit :=
  if (seed <? - 2 ^ 63) || (2 ^ 64 - 1 <? seed) then Raise RuntimeError
  else OK tt.

(** [np.random.seed(seed)]: the seed must lie between 0 and [2^32 - 1],
    otherwise a [ValueError] is raised. *)
Definition np_random_seed (seed : Z) : result unit :=
  if (seed <? 0) || (2 ^ 32 - 1 <? seed) then Raise ValueError
  else OK tt.

(** Lines 36-37, in this order. *)
Definition seed_rngs (seed : Z) : result unit :=
  match torch_manual_seed seed with
  | Raise ex => Raise ex
  | OK _ => np_random_seed seed
  end.

(** ** The metric store

    [metrics[phase][metric]] is a list of per-epoch values; phases are
    "train" and "test", metrics are "loss" and "accuracy". *)

Abbreviation Metrics := (gmap string (gmap string (list float))).

Definition phase_metrics (losses accuracies : list float)
  : gmap string (list float) :=
  {[ "loss" := losses; "accuracy" := accuracies ]}.

Definition mk_metrics (train_loss train_acc test_loss test_acc : list float)
  : Metrics :=
  {[ "train" := phase_metrics train_loss train_acc;
     "test" := phase_metrics test_loss test_acc ]}.

(** Modelled from the spec: [init_metric] lives in utils.py, which is not
    part of the sources.  Section 3 of the specification: a mapping from
    phase name to a mapping from metric name to an ordered sequence of
    per-epoch values, empty before the first evaluation. *)
Definition init_metric : Metrics := mk_metrics [] [] [] [].

(** Modelled from the spec: the Metric Tracker of section 4.4 (utils.py,
    absent): [record(phase, loss_value, accuracy_value)] appends to the
    corresponding sequences.  A phase or metric that is not in the store is
    a Python [KeyError]. *)
Definition record (metrics : Metrics) (phase : string) (loss_value accuracy_value : float)
  : result Metrics :=
  match metrics !! phase with
  | None => Raise (KeyError phase)
  | Some pm =>
      match pm !! "loss", pm !! "accuracy" with
      | Some losses, Some accuracies =>
          OK (<[phase := <["accuracy" := accuracies ++ [accuracy_value]]>
                           (<["loss" := losses ++ [loss_value]]> pm)]> metrics)
      | None, _ => Raise (KeyError "loss")
      | _, None => Raise (KeyError "accuracy")
      end
  end.

(** [metrics[phase][metric][-1]] (lines 141-142). *)
Definition latest (metrics : Metrics) (phase metric : string) : result float :=
  match metrics !! phase with
  | None => Raise (KeyError phase)
  | Some pm =>
      match pm !! metric with
      | None => Raise (KeyError metric)
      | Some values =>
          match last values with
          | None => Raise IndexError
          | Some v => OK v
          end
      end
  end.

(** [np.isnan] on a float. *)
Definition np_isnan (x : float) : bool := is_nan x.

(** The condition of the [if] at lines 141-143; Python's [or] evaluates its
    right operand only when the left one is false. *)
Definition nan_detected (metrics : Metrics) : result bool :=
  match latest metrics "test" "loss" with
  | Raise e => Raise e
  | OK t =>
      if np_isnan t then OK true
      else match latest metrics "train" "loss" with
           | Raise e => Raise e
           | OK tr => OK (np_isnan tr)
           end
  end.

(** A loss that is a number: neither NaN nor an infinity. *)
Definition finite_loss (x : float) : bool := negb (is_nan x || is_infinity x).

(** [range(n)] for a Python integer [n]: empty when [n <= 0]. *)
Definition py_range (n : Z) : list Z := map Z.of_nat (seq 0 (Z.to_nat n)).

(** ** Arguments of [train_network] (lines 14-30) *)

Record train_args : Type := {
  batch_size : Z;
  dataset : string;
  device : string;
  bias : bool;
  decorrelation_method : option string;
  decor_lr : float;
  n_hidden_layers : Z;
  hidden_layer_size : Z;
  loss_func_type : string;
  optimizer_type : string;
  fwd_lr : float;
  seed : Z;
  nb_epochs : Z;
  loud : bool;
  wandb : bool
}.

(** ** The numerical backend

    Tensor arithmetic is provided by torch and is a parameter of the
    development: the entries of a tensor, their arithmetic and torch's
    cross-entropy, [torch.nn.CrossEntropyLoss(reduction="none")], which
    gives one loss per sample from the outputs and the integer labels, and
    what torch's squared error does on two tensors of different shapes
    (it broadcasts them, or raises when it cannot). *)
Class Numeric : Type := {
  scalar : Type;
  tzero : scalar;
  tadd : scalar -> scalar -> scalar;
  tsub : scalar -> scalar -> scalar;
  tmul : scalar -> scalar -> scalar;
  CrossEntropyLoss_none : list (list scalar) -> list Z -> result (list scalar);
  MSELoss_broadcast :
    list (list scalar) -> list (list scalar) -> result (list (list scalar))
}.

Section Loss.

Context {N : Numeric}.

(** A batch of network outputs or of one-hot targets: one row per sample,
    one column per class. *)
Definition Tensor : Type := list (list scalar).

Fixpoint same_shape (a b : Tensor) : bool :=
  match a, b with
  | [], [] => true
  | r :: a', s :: b' => Nat.eqb (length r) (length s) && same_shape a' b'
  | _, _ => false
  end.

Definition squared_error (x y : scalar) : scalar := tmul (tsub x y) (tsub x y).

(** [torch.nn.MSELoss(reduction="none")]: the element-wise squared
    difference of two tensors of one shape; on different shapes, what the
    backend's broadcasting gives. *)
Definition MSELoss_none (input target : Tensor) : result Tensor :=
  if same_shape input target
  then OK (zip_with (zip_with squared_error) input target)
  else MSELoss_broadcast input target.

(** [torch.sum(t, axis=1)]. *)
Definition torch_sum_axis1 (t : Tensor) : list scalar :=
  map (fun row => fold_left tadd row tzero) t.

(** The closure bound to [loss_func]: [lambda input, target, onehot: ...]. *)
Definition loss_fn : Type := Tensor -> list Z -> Tensor -> result (list scalar).

(** Lines 105-113. *)
Definition make_loss_func (loss_func_type : string) : option loss_fn :=
  if String.eqb loss_func_type "CCE" then
    Some (fun input target onehot => CrossEntropyLoss_none input target)
  else if String.eqb loss_func_type "MSE" then
    Some (fun input target onehot =>
            match MSELoss_none input onehot with
            | OK t => OK (torch_sum_axis1 t)
            | Raise e => Raise e
            end)
  else None.

(** The "MSE" loss of one sample as the specification words it: the
    squared error against the one-hot target, summed over the output
    classes. *)
Definition sample_sse (row onehot_row : list scalar) : scalar :=
  fold_left tadd (zip_with squared_error row onehot_row) tzero.

End Loss.

(** ** The network, the data and the passes over them

    [Model] is the state of the network together with that of its
    optimizers; [Batch] is one (input, label, one-hot) batch.
    [load_dataset] gives the (train, test) batches of a recognised dataset,
    [init_net] the initial parameters of a network from the seeded
    generator, [to_device] the move of the network to a device
    ([model.to(device)], which raises on a device that is not there),
    [evaluate] the mean loss and the accuracy of one forward-only pass over
    a loader, and [optimizer_step] one update of the parameters of one
    optimizer on one batch. *)
Class Backend {N : Numeric} : Type := {
  Model : Type;
  Batch : Type;
  load_dataset : dataset_ref -> Z -> string -> list Batch * list Batch;
  init_net : Z -> Z -> Z -> Z -> Z -> float -> option string -> bool -> Model;
  to_device : Model -> string -> result Model;
  evaluate : Model -> list Batch -> option loss_fn -> result (float * float);
  optimizer_step :
    Model -> Batch -> option optimizer -> option loss_fn -> result Model
}.

(** ** The configuration read by [run] (lines 149-151) *)

Record wandb_config : Type := {
  entity : string;
  project : string;
  mode : string
}.

Record config : Type := {
  c_wandb : wandb_config;
  c_batch_size : Z;
  c_dataset : string;
  c_device : string;
  c_bias : bool;
  c_decorrelation_method : option string;
  c_decor_lr : float;
  c_n_hidden_layers : Z;
  c_hidden_layer_size : Z;
  c_loss_func_type : string;
  c_optimizer_type : string;
  c_fwd_lr : float;
  c_seed : Z;
  c_nb_epochs : Z;
  c_loud : bool
}.

(** How a call of [run] ends: [exit()], a normal return, or an exception. *)
Inductive run_outcome : Type :=
| Exited
| Returned
| Raised (e : exn).

Section Engine.

Context {N : Numeric} {B : Backend}.

(** The datasets the provider recognises: the torchvision classes of lines
    41-46 and the name that line 68 tests for. *)
Definition known_dataset (d : dataset_ref) : bool :=
  match d with
  | TorchvisionClass _ => true
  | DatasetName s => String.eqb s "TIN"
  end.

(** Modelled from the spec: [construct_dataloaders] lives in utils.py,
    which is not part of the sources.  Section 6: a data-loading provider
    yielding (train_batches, test_batches); section 7: an unknown dataset
    is a configuration error, surfaced immediately. *)
Definition construct_dataloaders (tv_dataset : dataset_ref) (batch_size : Z)
    (device : string) : result (list Batch * list Batch) :=
  if known_dataset tv_dataset
  then OK (load_dataset tv_dataset batch_size device)
  else Raise ConfigurationError.

(** Modelled from the spec: the constructor of [DecorNet] lives in
    modules.py, which is not part of the sources.  Section 4.2:
    constructing with a negative number of hidden layers or non-positive
    sizes fails with a configuration error. *)
Definition DecorNet (rng : Z) (in_size out_size n_hidden_layers hidden_size : Z)
    (decorrelation : float) (decorrelation_method : option string)
    (biases : bool) : result Model :=
  if (n_hidden_layers <? 0) || (in_size <=? 0) || (out_size <=? 0)
     || (hidden_size <=? 0)
  then Raise ConfigurationError
  else OK (init_net rng in_size out_size n_hidden_layers hidden_size
             decorrelation decorrelation_method biases).

(** Modelled from the spec: [update_metrics] lives in utils.py, which is
    not part of the sources.  Section 4.5, step 1: a forward-only pass
    over the loader computes the mean loss and the accuracy of the phase,
    which are recorded by the Metric Tracker; no parameter is updated. *)
Definition update_metrics (model : Model) (metrics : Metrics) (phase : string)
    (loader : list Batch) (loss_func : option loss_fn) (e : Z)
  : result Metrics :=
  match evaluate model loader loss_func with
  | Raise ex => Raise ex
  | OK (loss_value, accuracy_value) =>
      record metrics phase loss_value accuracy_value
  end.

(** A completed optimizer step on the batch of the given index. *)
Inductive step_event : Type :=
| Step (batch_index : nat) (o : option optimizer).

Fixpoint step_optimizers (i : nat) (model : Model) (batch : Batch)
    (optimizers : list (option optimizer)) (loss_func : option loss_fn)
  : logged step_event Model :=
  match optimizers with
  | [] => ret model
  | o :: os =>
      do model <- lift (optimizer_step model batch o loss_func) in
      do _ <- tell (Step i o) in
      step_optimizers i model batch os loss_func
  end.

Fixpoint train_from (i : nat) (model : Model) (loader : list Batch)
    (optimizers : list (option optimizer)) (loss_func : option loss_fn)
  : logged step_event Model :=
  match loader with
  | [] => ret model
  | b :: bs =>
      do model <- step_optimizers i model b optimizers loss_func in
      train_from (S i) model bs optimizers loss_func
  end.

(** Modelled from the spec: [train] lives in utils.py, which is not part
    of the sources.  Section 4.3: all training batches are visited once;
    per batch the optimizers are stepped in their fixed order, the
    forward optimizer first, then the decorrelation optimizer when there
    is one. *)
Definition train (model : Model) (loader : list Batch)
    (optimizers : list (option optimizer)) (e : Z)
    (loss_func : option loss_fn) : logged step_event Model :=
  train_from 0 model loader optimizers loss_func.

(** *** The call log of [train_network] *)

Inductive event : Type :=
| EvUpdateMetrics (phase : string) (e : Z) (loss_func : option loss_fn)
| EvTrain (e : Z) (optimizers : list (option optimizer))
    (loss_func : option loss_fn) (steps : list step_event)
| EvPrint (message : string).

(** Line 144. *)
Definition nan_message : string := "NaN detected, aborting training".

Definition call_update_metrics (model : Model) (metrics : Metrics)
    (phase : string) (loader : list Batch) (loss_func : option loss_fn)
    (e : Z) : logged event Metrics :=
  (update_metrics model metrics phase loader loss_func e,
   [EvUpdateMetrics phase e loss_func]).

Definition call_train (model : Model) (loader : list Batch)
    (optimizers : list (option optimizer)) (e : Z)
    (loss_func : option loss_fn) : logged event Model :=
  let '(r, steps) := train model loader optimizers e loss_func in
  (r, [EvTrain e optimizers loss_func steps]).

(** *** The local variables at line 115 *)

Record locals : Type := {
  l_model : Model;
  l_train_loader : list Batch;
  l_test_loader : list Batch;
  l_optimizers : list (option optimizer);
  l_loss_func : option loss_fn;
  l_metrics : Metrics
}.

(** Lines 32-113. *)
Definition setup (a : train_args) : result locals :=
  match seed_rngs (seed a) with
  | Raise ex => Raise ex
  | OK _ =>
  let tv_dataset := resolve_dataset (dataset a) in
  match construct_dataloaders tv_dataset (batch_size a) (device a) with
  | Raise ex => Raise ex
  | OK (train_loader, test_loader) =>
      let '(in_size, out_size) := io_sizes tv_dataset in
      match DecorNet (seed a) in_size out_size (n_hidden_layers a)
              (hidden_layer_size a) (decor_lr a) (decorrelation_method a)
              (bias a) with
      | Raise ex => Raise ex
      | OK model =>
      match to_device model (device a) with
      | Raise ex => Raise ex
      | OK model =>
      match construct_optimizers
              (make_optimizers (optimizer_type a) (fwd_lr a)
                 (decorrelation_method a) (decor_lr a)) with
      | Raise ex => Raise ex
      | OK optimizers =>
          OK {| l_model := model;
                l_train_loader := train_loader;
                l_test_loader := test_loader;
                l_optimizers := optimizers;
                l_loss_func := make_loss_func (loss_func_type a);
                l_metrics := init_metric |}
      end
      end
      end
  end
  end.

(** *** The train loop (lines 116-145) *)
Section Loop.

Variable nb : Z.
Variables train_loader test_loader : list Batch.
Variable optimizers : list (option optimizer).
Variable loss_func : option loss_fn.

(** The iterations over the remaining epochs; [break] returns. *)
Fixpoint epoch_loop (epochs : list Z) (model : Model) (metrics : Metrics)
  : logged event Metrics :=
  match epochs with
  | [] => ret metrics
  | e :: rest =>
      do metrics <- call_update_metrics model metrics "train" train_loader loss_func e in
      do metrics <- call_update_metrics model metrics "test" test_loader loss_func e in
      do model <- (if e <? nb
                   then call_train model train_loader optimizers e loss_func
                   else ret model) in
      do stop <- lift (nan_detected metrics) in
      if (stop : bool)
      then do _ <- tell (EvPrint nan_message) in ret metrics
      else epoch_loop rest model metrics
  end.

(** The steps of a completed training pass: on every batch, in order,
    one step of every optimizer, in the order of the list. *)
Definition all_steps_from (i : nat) (loader : list Batch) : list step_event :=
  flat_map (fun j => map (Step j) optimizers) (seq i (length loader)).

(** The calls of one completed epoch [e]: both evaluations, then the
    training pass when [e < nb]. *)
Definition epoch_calls (e : Z) : list event :=
  [EvUpdateMetrics "train" e loss_func; EvUpdateMetrics "test" e loss_func]
  ++ (if e <? nb
      then [EvTrain e optimizers loss_func (all_steps_from 0 train_loader)]
      else []).

End Loop.

Definition step_optimizer (s : step_event) : option optimizer :=
  match s with Step _ o => o end.

(** The loss function an event was called with, when it has one. *)
Definition event_loss (ev : event) : option (option loss_fn) :=
  match ev with
  | EvUpdateMetrics _ _ lf => Some lf
  | EvTrain _ _ lf _ => Some lf
  | EvPrint _ => None
  end.

(** What a logged call was made with: the loss function and, for a
    training pass, the optimizers, of which every step is one. *)
Definition call_carries (optimizers : list (option optimizer))
    (loss_func : option loss_fn) (ev : event) : Prop :=
  match ev with
  | EvUpdateMetrics _ _ lf => lf = loss_func
  | EvTrain _ opts lf steps =>
      opts = optimizers /\ lf = loss_func
      /\ Forall (fun s => In (step_optimizer s) optimizers) steps
  | EvPrint _ => True
  end.

(** The epoch of a call. *)
Definition event_epoch (ev : event) : option Z :=
  match ev with
  | EvUpdateMetrics _ e _ => Some e
  | EvTrain e _ _ _ => Some e
  | EvPrint _ => None
  end.

Definition train_loop (nb : Z) (ctx : locals) : logged event Metrics :=
  epoch_loop nb (l_train_loader ctx) (l_test_loader ctx) (l_optimizers ctx)
    (l_loss_func ctx) (py_range (nb + 1)) (l_model ctx) (l_metrics ctx).

Definition train_network (a : train_args) : logged event Metrics :=
  do ctx <- lift (setup a) in
  train_loop (nb_epochs a) ctx.

(** *** The entry point (lines 149-184)

    [wandb.init] is given [cfg], the container made of the configuration at
    line 151, before line 160 may change the method, and the three
    settings of [config.wandb]. *)

Inductive run_event : Type :=
| RunWandbInit (cfg : config) (w : wandb_config)
| RunTrainNetwork (a : train_args) (log : list event)
| RunPrint (metrics : Metrics).

(** Lines 159-160: the string "None" stands for [None]. *)
Definition normalize_method (m : option string) : option string :=
  match m with
  | Some s => if String.eqb s "None" then None else Some s
  | None => None
  end.

Definition is_foldiak (m : option string) : bool :=
  match m with
  | Some s => String.eqb s "foldiak"
  | None => false
  end.

Definition run (cfg : config) : run_outcome * list run_event :=
  let init := RunWandbInit cfg (c_wandb cfg) in
  let decorrelation_method := normalize_method (c_decorrelation_method cfg) in
  if is_foldiak decorrelation_method then (Exited, [init])
  else
    let a := {| batch_size := c_batch_size cfg;
                dataset := c_dataset cfg;
                device := c_device cfg;
                bias := c_bias cfg;
                decorrelation_method := decorrelation_method;
                decor_lr := c_decor_lr cfg;
                n_hidden_layers := c_n_hidden_layers cfg;
                hidden_layer_size := c_hidden_layer_size cfg;
                loss_func_type := c_loss_func_type cfg;
                optimizer_type := c_optimizer_type cfg;
                fwd_lr := c_fwd_lr cfg;
                seed := c_seed cfg;
                nb_epochs := c_nb_epochs cfg;
                loud := c_loud cfg;
                wandb := true |} in
    match train_network a with
    | (OK metrics, log) =>
        (Returned, [init; RunTrainNetwork a log; RunPrint metrics])
    | (Raise e, log) => (Raised e, [init; RunTrainNetwork a log])
    end.

End Engine.

(** ** A scripted backend

    A small instance of the backend on which runs can be evaluated: the
    model counts the optimizer steps taken so far, every loader holds one
    batch (tagged [true] for the test set), and the mean loss of a pass is
    read off a script indexed by the phase and by the number of steps. *)
Module Scripted.

#[local] Instance numeric : Numeric := {|
  scalar := Z;
  tzero := 0;
  tadd := Z.add;
  tsub := Z.sub;
  tmul := Z.mul;
  CrossEntropyLoss_none := fun input target => OK (map (fun _ => 0) input);
  MSELoss_broadcast := fun _ _ => Raise RuntimeError
|}.

Definition backend (loss_at : bool -> nat -> float) : Backend := {|
  Model := nat;
  Batch := bool;
  load_dataset := fun _ _ _ => ([false], [true]);
  init_net := fun _ _ _ _ _ _ _ _ => 0%nat;
  to_device := fun m _ => OK m;
  evaluate := fun m loader _ =>
    OK (loss_at (hd false loader) m, 0.5%float);
  optimizer_step := fun m _ _ _ => OK (S m)
|}.

Definition args (nb : Z) (method : option string) : train_args := {|
  batch_size := 256;
  dataset := "MNIST";
  device := "cpu";
  bias := true;
  decorrelation_method := method;
  decor_lr := 1e-3%float;
  n_hidden_layers := 3;
  hidden_layer_size := 1000;
  loss_func_type := "CCE";
  optimizer_type := "Adam";
  fwd_lr := 1e-2%float;
  seed := 42;
  nb_epochs := nb;
  loud := true;
  wandb := false
|}.

Definition cfg (method : option string) : config := {|
  c_wandb := {| entity := "lab"; project := "decor"; mode := "offline" |};
  c_batch_size := 256;
  c_dataset := "MNIST";
  c_device := "cpu";
  c_bias := true;
  c_decorrelation_method := method;
  c_decor_lr := 1e-3%float;
  c_n_hidden_layers := 3;
  c_hidden_layer_size := 1000;
  c_loss_func_type := "CCE";
  c_optimizer_type := "Adam";
  c_fwd_lr := 1e-2%float;
  c_seed := 42;
  c_nb_epochs := 10;
  c_loud := true
|}.

(** The arguments [args nb None] with another dataset name, number of
    hidden layers, loss and optimizer. *)
Definition args_with (nb : Z) (dataset : string) (n_hidden : Z)
    (loss_func_type optimizer_type : string) : train_args := {|
  batch_size := 256;
  dataset := dataset;
  device := "cpu";
  bias := true;
  decorrelation_method := None;
  decor_lr := 1e-3%float;
  n_hidden_layers := n_hidden;
  hidden_layer_size := 1000;
  loss_func_type := loss_func_type;
  optimizer_type := optimizer_type;
  fwd_lr := 1e-2%float;
  seed := 42;
  nb_epochs := nb;
  loud := true;
  wandb := false
|}.

(** Losses that stay finite. *)
Definition steady (_ : bool) (_ : nat) : float := 1%float.

(** The train loss is infinite before the first step. *)
Definition infinite_first (test : bool) (m : nat) : float :=
  match test, m with
  | false, O => infinity
  | _, _ => 1%float
  end.

(** The train loss is NaN before the first step. *)
Definition nan_first (test : bool) (m : nat) : float :=
  match test, m with
  | false, O => nan
  | _, _ => 1%float
  end.

(** Three epochs of steady losses. *)
Definition steady_run : logged event Metrics :=
  train_network (B := backend steady) (args 2 None).

(** A NaN train loss at epoch 0 of a run of two training epochs. *)
Definition nan_run : logged event Metrics :=
  train_network (B := backend nan_first) (args 2 None).

(** A NaN train loss at the only evaluation of a run without training. *)
Definition nan_last_run : logged event Metrics :=
  train_network (B := backend nan_first) (args 0 None).

(** An infinite train loss at epoch 0 of a run of one training epoch. *)
Definition infinite_run : logged event Metrics :=
  train_network (B := backend infinite_first) (args 1 None).

(** The arguments [args 1 None] with another seed. *)
Definition seeded (seed : Z) : train_args := {|
  batch_size := 256;
  dataset := "MNIST";
  device := "cpu";
  bias := true;
  decorrelation_method := None;
  decor_lr := 1e-3%float;
  n_hidden_layers := 3;
  hidden_layer_size := 1000;
  loss_func_type := "CCE";
  optimizer_type := "Adam";
  fwd_lr := 1e-2%float;
  seed := seed;
  nb_epochs := 1;
  loud := true;
  wandb := false
|}.

(** A decorrelation method with a negative learning rate. *)
Definition negative_decor_lr : train_args := {|
  batch_size := 256;
  dataset := "MNIST";
  device := "cpu";
  bias := true;
  decorrelation_method := Some "copi";
  decor_lr := (-1)%float;
  n_hidden_layers := 3;
  hidden_layer_size := 1000;
  loss_func_type := "CCE";
  optimizer_type := "Adam";
  fwd_lr := 1e-2%float;
  seed := 42;
  nb_epochs := 1;
  loud := true;
  wandb := false
|}.

(** An optimizer type and a loss type that the code does not know. *)
Definition unknown_types : train_args :=
  args_with 1 "MNIST" 3 "L1" "RMSprop".

End Scripted.


(** ** Observations on the call log and on configurations *)

Section Observations.

Context {N : Numeric} {B : Backend}.

(** The epochs at which the loop of a run of [nb] epochs makes its calls:
    evaluations from 0 to [nb], training passes from 0 to [nb - 1]. *)
Definition call_in_range (nb : Z) (ev : event) : Prop :=
  match ev with
  | EvUpdateMetrics _ e _ => 0 <= e <= nb
  | EvTrain e _ _ _ => 0 <= e < nb
  | EvPrint _ => True
  end.

Definition is_train_call (ev : event) : bool :=
  match ev with
  | EvTrain _ _ _ _ => true
  | _ => false
  end.

End Observations.

(** The table of the recognised datasets, as the specification gives it
    (section 6): name, input size and number of classes. *)
Definition dataset_table : list (string * (Z * Z)) :=
  [("MNIST", (28 * 28, 10)); ("CIFAR10", (32 * 32 * 3, 10));
   ("CIFAR100", (32 * 32 * 3, 100)); ("TIN", (64 * 64 * 3, 200))].

(** The configuration [cfg] with another [decorrelation_method]. *)
Definition set_decorrelation_method (cfg : config) (m : option string) : config := {|
  c_wandb := c_wandb cfg;
  c_batch_size := c_batch_size cfg;
  c_dataset := c_dataset cfg;
  c_device := c_device cfg;
  c_bias := c_bias cfg;
  c_decorrelation_method := m;
  c_decor_lr := c_decor_lr cfg;
  c_n_hidden_layers := c_n_hidden_layers cfg;
  c_hidden_layer_size := c_hidden_layer_size cfg;
  c_loss_func_type := c_loss_func_type cfg;
  c_optimizer_type := c_optimizer_type cfg;
  c_fwd_lr := c_fwd_lr cfg;
  c_seed := c_seed cfg;
  c_nb_epochs := c_nb_epochs cfg;
  c_loud := c_loud cfg
|}.

(** A backend whose evaluation pass fails. *)
Module Faulty.

Definition backend : Backend (N := Scripted.numeric) := {|
  Model := nat;
  Batch := bool;
  load_dataset := fun _ _ _ => ([false], [true]);
  init_net := fun _ _ _ _ _ _ _ _ => 0%nat;
  to_device := fun m _ => OK m;
  evaluate := fun _ _ _ => Raise (BackendError 7);
  optimizer_step := fun m _ _ _ => OK (S m)
|}.

End Faulty.

(** * Properties *)

(** ** Logged computations *)

Lemma bind_OK {E A C} (m : logged E A) (f : A -> logged E C) r log :
  bind m f = (OK r, log) ->
  exists a l1 l2, m = (OK a, l1) /\ f a = (OK r, l2) /\ log = l1 ++ l2.
Proof.
  unfold bind. destruct m as [[a|e] l1]; [|discriminate].
  destruct (f a) as [r' l2] eqn:Hf. intros [= -> <-]. eauto 6.
Qed.

(** ** The metric store *)

Lemma record_train a b c d x y :
  record (mk_metrics a b c d) "train" x y
  = OK (mk_metrics (a ++ [x]) (b ++ [y]) c d).
Proof. reflexivity. Qed.

Lemma record_test a b c d x y :
  record (mk_metrics a b c d) "test" x y
  = OK (mk_metrics a b (c ++ [x]) (d ++ [y])).
Proof. reflexivity. Qed.

Lemma latest_loss_train a b c d :
  latest (mk_metrics a b c d) "train" "loss"
  = match last a with Some v => OK v | None => Raise IndexError end.
Proof. reflexivity. Qed.

Lemma latest_loss_test a b c d :
  latest (mk_metrics a b c d) "test" "loss"
  = match last c with Some v => OK v | None => Raise IndexError end.
Proof. reflexivity. Qed.

Lemma nan_detected_snoc a b c d x y :
  nan_detected (mk_metrics (a ++ [x]) b (c ++ [y]) d)
  = OK (np_isnan y || np_isnan x).
Proof.
  unfold nan_detected. rewrite latest_loss_train, latest_loss_test, !last_snoc.
  destruct (np_isnan y); reflexivity.
Qed.

Section Facts.

Context {N : Numeric} {B : Backend}.

(** ** The training pass *)

Lemma step_optimizers_OK i model b os lf m' steps :
  step_optimizers i model b os lf = (OK m', steps) ->
  steps = map (Step i) os.
Proof.
  revert model steps. induction os as [|o os IH]; intros model steps H.
  - cbn in H. injection H as _ <-. reflexivity.
  - cbn [step_optimizers] in H.
    apply bind_OK in H as (m1 & l1 & l2 & H1 & H2 & ->).
    unfold lift in H1. injection H1 as _ <-.
    apply bind_OK in H2 as ([] & l3 & l4 & H3 & H4 & ->).
    unfold tell in H3. injection H3 as <-.
    apply IH in H4 as ->. reflexivity.
Qed.

Lemma train_from_OK opts lf loader : forall i model m' steps,
  train_from i model loader opts lf = (OK m', steps) ->
  steps = all_steps_from opts i loader.
Proof.
  induction loader as [|b bs IH]; intros i model m' steps H.
  - cbn in H. injection H as _ <-. reflexivity.
  - cbn [train_from] in H.
    apply bind_OK in H as (m1 & l1 & l2 & H1 & H2 & ->).
    apply step_optimizers_OK in H1 as ->.
    apply IH in H2 as ->. reflexivity.
Qed.

Lemma call_train_OK model loader opts e lf m' log :
  call_train model loader opts e lf = (OK m', log) ->
  log = [EvTrain e opts lf (all_steps_from opts 0 loader)].
Proof.
  unfold call_train, train.
  destruct (train_from 0 model loader opts lf) as [r steps] eqn:Ht.
  intros [= -> <-]. apply train_from_OK in Ht as ->. reflexivity.
Qed.

(** ** The evaluations *)

Lemma call_update_metrics_train_OK model a b c d loader lf e m log :
  call_update_metrics model (mk_metrics a b c d) "train" loader lf e = (OK m, log) ->
  exists x y, evaluate model loader lf = OK (x, y)
              /\ m = mk_metrics (a ++ [x]) (b ++ [y]) c d
              /\ log = [EvUpdateMetrics "train" e lf].
Proof.
  unfold call_update_metrics, update_metrics.
  destruct (evaluate model loader lf) as [[x y]|ex]; [|discriminate].
  rewrite record_train. intros [= <- <-]. eauto.
Qed.

Lemma call_update_metrics_test_OK model a b c d loader lf e m log :
  call_update_metrics model (mk_metrics a b c d) "test" loader lf e = (OK m, log) ->
  exists x y, evaluate model loader lf = OK (x, y)
              /\ m = mk_metrics a b (c ++ [x]) (d ++ [y])
              /\ log = [EvUpdateMetrics "test" e lf].
Proof.
  unfold call_update_metrics, update_metrics.
  destruct (evaluate model loader lf) as [[x y]|ex]; [|discriminate].
  rewrite record_test. intros [= <- <-]. eauto.
Qed.

(** ** One iteration of the loop that returns normally *)

Lemma epoch_loop_cons_OK nb trl tel opts lf e rest model a b c d r log :
  epoch_loop nb trl tel opts lf (e :: rest) model (mk_metrics a b c d) = (OK r, log) ->
  exists x y x' y',
    let m2 := mk_metrics (a ++ [x]) (b ++ [y]) (c ++ [x']) (d ++ [y']) in
    if np_isnan x' || np_isnan x
    then r = m2 /\ log = epoch_calls nb trl opts lf e ++ [EvPrint nan_message]
    else exists model' log',
        epoch_loop nb trl tel opts lf rest model' m2 = (OK r, log')
        /\ log = epoch_calls nb trl opts lf e ++ log'.
Proof.
  intros H. cbn [epoch_loop] in H.
  apply bind_OK in H as (m1 & l1 & l1' & H1 & H & ->).
  apply call_update_metrics_train_OK in H1 as (x & y & _ & -> & ->).
  apply bind_OK in H as (m2 & l2 & l2' & H2 & H & ->).
  apply call_update_metrics_test_OK in H2 as (x' & y' & _ & -> & ->).
  apply bind_OK in H as (model' & l3 & l3' & H3 & H & ->).
  apply bind_OK in H as (stop & l4 & l4' & H4 & H & ->).
  unfold lift in H4. rewrite nan_detected_snoc in H4. injection H4 as <- <-.
  exists x, y, x', y'. cbn zeta.
  assert (Hl3 : l3 = if e <? nb
                     then [EvTrain e opts lf (all_steps_from opts 0 trl)]
                     else []).
  { destruct (e <? nb).
    - apply call_train_OK in H3. exact H3.
    - unfold ret in H3. injection H3 as _ <-. reflexivity. }
  subst l3. unfold epoch_calls.
  destruct (np_isnan x' || np_isnan x).
  - apply bind_OK in H as ([] & l5 & l5' & H5 & H & ->).
    unfold tell in H5. injection H5 as <-.
    unfold ret in H. injection H as <- <-.
    split; [reflexivity|]. cbn. reflexivity.
  - exists model', l4'. split; [exact H|].
    cbn. rewrite <- ?app_assoc. reflexivity.
Qed.

(** ** The shape of a run of the loop that returns normally

    [k] epochs were executed; each appended one value to each of the four
    sequences; the log holds the calls of these [k] epochs, followed by
    the abort message when the loop was left by [break]; NaN can only
    have been recorded by the last executed epoch, and was recorded there
    exactly when the loop was left by [break]. *)
Lemma epoch_loop_OK nb trl tel opts lf epochs : forall model a b c d r log,
  epoch_loop nb trl tel opts lf epochs model (mk_metrics a b c d) = (OK r, log) ->
  exists (k : nat) va vb vc vd (aborted : bool),
    (k <= length epochs)%nat /\
    length va = k /\ length vb = k /\ length vc = k /\ length vd = k /\
    r = mk_metrics (a ++ va) (b ++ vb) (c ++ vc) (d ++ vd) /\
    log = flat_map (epoch_calls nb trl opts lf) (take k epochs)
          ++ (if aborted then [EvPrint nan_message] else []) /\
    (forall i x x', (S i < k)%nat -> va !! i = Some x -> vc !! i = Some x' ->
        np_isnan x' || np_isnan x = false) /\
    (if aborted
     then exists x x', last va = Some x /\ last vc = Some x'
                       /\ np_isnan x' || np_isnan x = true
     else k = length epochs /\
          forall x x', last va = Some x -> last vc = Some x' ->
                       np_isnan x' || np_isnan x = false).
Proof.
  induction epochs as [|e rest IH]; intros model a b c d r log H.
  - cbn in H. injection H as <- <-.
    exists 0%nat, [], [], [], [], false. rewrite !app_nil_r.
    repeat split; try reflexivity; try lia. discriminate.
  - apply epoch_loop_cons_OK in H as (x & y & x' & y' & H). cbn zeta in H.
    destruct (np_isnan x' || np_isnan x) eqn:Hn.
    + destruct H as [-> ->].
      exists 1%nat, [x], [y], [x'], [y'], true.
      repeat split; try reflexivity; try (cbn; lia).
      * cbn. rewrite app_nil_r. reflexivity.
      * exists x, x'. auto.
    + destruct H as (model' & log' & H & ->).
      apply IH in H as (k & va & vb & vc & vd & ab & Hk & La & Lb & Lc & Ld
                        & -> & -> & Hmid & Hlast).
      exists (S k), (x :: va), (y :: vb), (x' :: vc), (y' :: vd), ab.
      repeat split; try (cbn; lia).
      * rewrite <- !app_assoc. reflexivity.
      * cbn [take flat_map]. rewrite <- app_assoc. reflexivity.
      * intros [|i] z z' Hi Hz Hz'.
        -- cbn in Hz, Hz'. injection Hz as <-. injection Hz' as <-. exact Hn.
        -- cbn in Hz, Hz'. apply (Hmid i); [lia|assumption..].
      * destruct ab.
        -- destruct Hlast as (z & z' & Hz & Hz' & Hzz).
           exists z, z'. rewrite !last_cons, Hz, Hz'. auto.
        -- destruct Hlast as [-> Hlast]. split; [reflexivity|].
           destruct va as [|v va], vc as [|v' vc];
             try (exfalso; cbn in La, Lc; lia).
           ++ cbn. intros z z' [= <-] [= <-]. exact Hn.
           ++ intros z z' Hz Hz'. apply Hlast; assumption.
Qed.

(** ** [range] *)

Lemma length_py_range n : length (py_range n) = Z.to_nat n.
Proof. unfold py_range. rewrite length_map, length_seq. reflexivity. Qed.

Lemma take_py_range (k : nat) n :
  (k <= Z.to_nat n)%nat -> take k (py_range n) = py_range (Z.of_nat k).
Proof.
  intros Hk. unfold py_range.
  rewrite firstn_map, take_seq, Nat2Z.id, Nat.min_l by lia. reflexivity.
Qed.

Lemma py_range_S (k : nat) :
  py_range (Z.of_nat (S k)) = py_range (Z.of_nat k) ++ [Z.of_nat k].
Proof.
  unfold py_range. rewrite !Nat2Z.id, seq_S, map_app. reflexivity.
Qed.

Lemma in_py_range e n : In e (py_range n) -> 0 <= e < n.
Proof.
  unfold py_range. rewrite in_map_iff. intros (j & <- & Hj).
  apply in_seq in Hj. lia.
Qed.

(** ** The sequences of a store built by [mk_metrics] *)

Lemma mk_metrics_lookup tl ta el ea phase metric
    (pm : gmap string (list float)) (values : list float) :
  mk_metrics tl ta el ea !! phase = Some pm ->
  pm !! metric = Some values ->
  values = tl \/ values = ta \/ values = el \/ values = ea.
Proof.
  unfold mk_metrics, phase_metrics. intros Hp Hm.
  apply lookup_insert_Some in Hp as [[_ <-]|[_ Hp]].
  - apply lookup_insert_Some in Hm as [[_ <-]|[_ Hm]]; [auto|].
    apply lookup_singleton_Some in Hm as [_ <-]. auto.
  - apply lookup_singleton_Some in Hp as [_ <-].
    apply lookup_insert_Some in Hm as [[_ <-]|[_ Hm]]; [auto|].
    apply lookup_singleton_Some in Hm as [_ <-]. auto.
Qed.

(** ** Runs of [train_network] *)

Lemma train_network_unfold a :
  train_network a
  = match setup a with
    | OK ctx => train_loop (nb_epochs a) ctx
    | Raise e => (Raise e, [])
    end.
Proof.
  unfold train_network, bind, lift. destruct (setup a) as [ctx|e]; [|reflexivity].
  destruct (train_loop (nb_epochs a) ctx). reflexivity.
Qed.

Lemma setup_OK a ctx :
  setup a = OK ctx ->
  l_metrics ctx = init_metric
  /\ l_optimizers ctx
     = make_optimizers (optimizer_type a) (fwd_lr a) (decorrelation_method a)
         (decor_lr a)
  /\ l_loss_func ctx = make_loss_func (loss_func_type a).
Proof.
  unfold setup.
  destruct seed_rngs; [|discriminate].
  destruct construct_dataloaders as [[trl tel]|]; [|discriminate].
  destruct io_sizes as [i o].
  destruct DecorNet; [|discriminate].
  destruct to_device; [|discriminate].
  unfold construct_optimizers. destruct forallb; [|discriminate].
  intros [= <-]. auto.
Qed.

(** The shape of a run of [train_network] that returns normally. *)
Lemma train_network_OK a metrics log :
  train_network a = (OK metrics, log) ->
  exists ctx (k : nat) tl ta el ea (aborted : bool),
    setup a = OK ctx /\
    (k <= Z.to_nat (nb_epochs a + 1))%nat /\
    length tl = k /\ length ta = k /\ length el = k /\ length ea = k /\
    metrics = mk_metrics tl ta el ea /\
    log = flat_map (epoch_calls (nb_epochs a) (l_train_loader ctx)
                      (l_optimizers ctx) (l_loss_func ctx))
            (py_range (Z.of_nat k))
          ++ (if aborted then [EvPrint nan_message] else []) /\
    (forall i x x', (S i < k)%nat -> tl !! i = Some x -> el !! i = Some x' ->
        np_isnan x' || np_isnan x = false) /\
    (if aborted
     then exists x x', last tl = Some x /\ last el = Some x'
                       /\ np_isnan x' || np_isnan x = true
     else k = Z.to_nat (nb_epochs a + 1) /\
          forall x x', last tl = Some x -> last el = Some x' ->
                       np_isnan x' || np_isnan x = false).
Proof.
  rewrite train_network_unfold. destruct (setup a) as [ctx|] eqn:Hs; [|discriminate].
  apply setup_OK in Hs as Hctx. destruct Hctx as (Hm & _ & _).
  unfold train_loop. rewrite Hm. unfold init_metric. intros H.
  apply epoch_loop_OK in H as (k & va & vb & vc & vd & ab & Hk & La & Lb & Lc
                               & Ld & -> & -> & Hmid & Hlast).
  rewrite length_py_range in Hk, Hlast.
  rewrite take_py_range by exact Hk.
  exists ctx, k, va, vb, vc, vd, ab. cbn [app]. auto 12.
Qed.

(** ** What every logged call carries, whatever the outcome *)

Lemma bind_log_Forall {E A C} (P : E -> Prop) (m : logged E A)
    (f : A -> logged E C) :
  Forall P (snd m) -> (forall a, Forall P (snd (f a))) ->
  Forall P (snd (bind m f)).
Proof.
  destruct m as [[a|e] l]; cbn; [|auto]. intros Hm Hf.
  specialize (Hf a). destruct (f a) as [r l2]. cbn in *.
  apply Forall_app; auto.
Qed.

Lemma step_optimizers_log i b lf os : forall model,
  Forall (fun s => In (step_optimizer s) os)
    (snd (step_optimizers i model b os lf)).
Proof.
  induction os as [|o os IH]; intros model; cbn [step_optimizers].
  - constructor.
  - apply bind_log_Forall; [constructor|]. intros m1.
    apply bind_log_Forall.
    + repeat constructor.
    + intros _. eapply Forall_impl; [apply IH|].
      intros s Hs. right. exact Hs.
Qed.

Lemma train_from_log opts lf loader : forall i model,
  Forall (fun s => In (step_optimizer s) opts)
    (snd (train_from i model loader opts lf)).
Proof.
  induction loader as [|b bs IH]; intros i model; cbn [train_from].
  - constructor.
  - apply bind_log_Forall; [apply step_optimizers_log|].
    intros m1. apply IH.
Qed.

Lemma epoch_loop_log nb trl tel opts lf epochs : forall model metrics,
  Forall (call_carries opts lf)
    (snd (epoch_loop nb trl tel opts lf epochs model metrics)).
Proof.
  induction epochs as [|e rest IH]; intros model metrics; cbn [epoch_loop].
  - constructor.
  - apply bind_log_Forall; [repeat constructor|]. intros m1.
    apply bind_log_Forall; [repeat constructor|]. intros m2.
    apply bind_log_Forall.
    { destruct (e <? nb); [|constructor].
      unfold call_train, train.
      pose proof (train_from_log opts lf trl 0%nat model) as Hs.
      destruct (train_from 0 model trl opts lf) as [r steps].
      cbn in *. repeat constructor. exact Hs. }
    intros model'. apply bind_log_Forall; [constructor|].
    intros [|]; [|apply IH].
    apply bind_log_Forall; [repeat constructor|]. intros _. constructor.
Qed.

Lemma train_network_log a ctx :
  setup a = OK ctx ->
  Forall (call_carries (l_optimizers ctx) (l_loss_func ctx))
    (snd (train_network a)).
Proof.
  intros Hs. rewrite train_network_unfold, Hs. apply epoch_loop_log.
Qed.

Lemma train_network_setup_raises a e :
  setup a = Raise e -> train_network a = (Raise e, []).
Proof. intros Hs. rewrite train_network_unfold, Hs. reflexivity. Qed.

End Facts.

(** * The claims *)

Section Claims.

Context {N : Numeric} {B : Backend}.

(** The network is built with the sizes that [io_sizes] gives for the
    dataset. *)
Lemma setup_model a ctx :
  setup a = OK ctx ->
  to_device
    (init_net (seed a) (fst (io_sizes (resolve_dataset (dataset a))))
       (snd (io_sizes (resolve_dataset (dataset a)))) (n_hidden_layers a)
       (hidden_layer_size a) (decor_lr a) (decorrelation_method a) (bias a))
    (device a)
  = OK (l_model ctx).
Proof.
  unfold setup.
  destruct seed_rngs; [|discriminate].
  destruct construct_dataloaders as [[trl tel]|]; [|discriminate].
  destruct io_sizes as [i o]. unfold DecorNet.
  destruct (_ || _); [discriminate|].
  destruct to_device as [model|]; [|discriminate].
  destruct construct_optimizers; [|discriminate].
  intros [= <-]. reflexivity.
Qed.

(** C8: for every recognised dataset name the input and output sizes of
    the network are those of the table: MNIST 28*28 and 10, CIFAR10
    32*32*3 and 10, CIFAR100 32*32*3 and 100, TIN 64*64*3 and 200; and the
    network of a run on such a dataset is the one constructed with these
    two sizes and then moved to the device. *)
Theorem dataset_dimensions :
  (io_sizes (resolve_dataset "MNIST") = (28 * 28, 10)
   /\ io_sizes (resolve_dataset "CIFAR10") = (32 * 32 * 3, 10)
   /\ io_sizes (resolve_dataset "CIFAR100") = (32 * 32 * 3, 100)
   /\ io_sizes (resolve_dataset "TIN") = (64 * 64 * 3, 200))
  /\ forall a ctx name in_size out_size,
      In (name, (in_size, out_size)) dataset_table ->
      dataset a = name ->
      setup a = OK ctx ->
      DecorNet (seed a) in_size out_size (n_hidden_layers a)
        (hidden_layer_size a) (decor_lr a) (decorrelation_method a) (bias a)
      = OK (init_net (seed a) in_size out_size (n_hidden_layers a)
              (hidden_layer_size a) (decor_lr a) (decorrelation_method a)
              (bias a))
      /\ to_device
           (init_net (seed a) in_size out_size (n_hidden_layers a)
              (hidden_layer_size a) (decor_lr a) (decorrelation_method a)
              (bias a))
           (device a)
         = OK (l_model ctx).
Proof.
  split; [repeat split; reflexivity|].
  intros a ctx name in_size out_size Hin Hd Hs.
  pose proof (setup_model a ctx Hs) as Hm.
  assert (Hsz : io_sizes (resolve_dataset (dataset a)) = (in_size, out_size)).
  { rewrite Hd. cbn in Hin.
    destruct Hin as [[= <- <- <-]|[[= <- <- <-]|[[= <- <- <-]|[[= <- <- <-]|[]]]]];
      reflexivity. }
  rewrite Hsz in Hm. cbn [fst snd] in Hm. split; [|exact Hm].
  revert Hs. unfold setup.
  destruct seed_rngs; [|discriminate].
  destruct construct_dataloaders as [[trl tel]|]; [|discriminate].
  rewrite Hsz. unfold DecorNet.
  destruct (_ || _); [discriminate|]. reflexivity.
Qed.

(** C4: with [decorrelation_method] set to "foldiak", [run] exits right
    after [wandb.init]: [train_network] is never called, so no training
    starts and no metrics are produced or printed. *)
Theorem foldiak_exits_before_training cfg :
  c_decorrelation_method cfg = Some "foldiak" ->
  run cfg = (Exited, [RunWandbInit cfg (c_wandb cfg)]).
Proof. intros H. unfold run. rewrite H. reflexivity. Qed.

(** C5: an unknown dataset name, a negative number of hidden layers or a
    non-positive hidden layer size makes [train_network] raise before the
    loop is entered: no evaluation and no training pass is logged.  What
    is raised is the configuration error, unless the seed itself was
    rejected first, by lines 36-37. *)
Theorem configuration_errors_abort_before_training a :
  (dataset a <> "MNIST" /\ dataset a <> "CIFAR10"
   /\ dataset a <> "CIFAR100" /\ dataset a <> "TIN")
  \/ n_hidden_layers a < 0 \/ hidden_layer_size a <= 0 ->
  train_network a
  = (Raise match seed_rngs (seed a) with
           | OK _ => ConfigurationError
           | Raise ex => ex
           end, []).
Proof.
  intros H. apply train_network_setup_raises. unfold setup.
  destruct (seed_rngs (seed a)) as [[]|ex0]; [|reflexivity].
  destruct (construct_dataloaders _ _ _) as [[trl tel]|ex] eqn:Hc.
  - destruct io_sizes as [i o]. unfold DecorNet.
    destruct H as [(H1 & H2 & H3 & H4)|[H|H]].
    + exfalso. revert Hc. unfold construct_dataloaders, resolve_dataset.
      apply String.eqb_neq in H1, H2, H3, H4.
      rewrite H1, H2, H3. cbn. rewrite H4. discriminate.
    + apply Z.ltb_lt in H. rewrite H. reflexivity.
    + apply Z.leb_le in H. rewrite H, !orb_true_r. reflexivity.
  - revert Hc. unfold construct_dataloaders.
    destruct known_dataset; [discriminate|]. intros [= <-]. reflexivity.
Qed.

(** ** The abort on a NaN loss *)

Lemma epoch_calls_epoch nb trl opts lf e ev :
  In ev (epoch_calls nb trl opts lf e) -> event_epoch ev = Some e.
Proof.
  unfold epoch_calls. cbn. destruct (e <? nb); cbn; intuition (subst; reflexivity).
Qed.

Lemma finite_loss_not_nan x : finite_loss x = true -> np_isnan x = false.
Proof.
  unfold finite_loss, np_isnan. destruct (is_nan x); [discriminate|reflexivity].
Qed.

(** C1 (amended): if the train loss or the test loss recorded by the
    evaluation of epoch [i] is NaN, the loop stops at that epoch: every
    sequence of the returned metrics ends with the value of epoch [i], no
    call of a later epoch is logged, and the last thing logged is the
    abort message. *)
Theorem nan_loss_stops_loop a metrics log :
  train_network a = (OK metrics, log) ->
  exists tl ta el ea,
    metrics = mk_metrics tl ta el ea /\
    forall (i : nat) x x',
      tl !! i = Some x -> el !! i = Some x' ->
      np_isnan x' || np_isnan x = true ->
      (length tl = S i /\ length ta = S i /\ length el = S i
       /\ length ea = S i)
      /\ (forall ev e, In ev log -> event_epoch ev = Some e -> e <= Z.of_nat i)
      /\ last log = Some (EvPrint nan_message).
Proof.
  intros H.
  apply train_network_OK in H as (ctx & k & tl & ta & el & ea & ab & _ & Hk
                                  & La & Lb & Lc & Ld & -> & -> & Hmid & Hlast).
  exists tl, ta, el, ea. split; [reflexivity|].
  intros i x x' Hx Hx' Hnan.
  assert (Hi : (i < k)%nat) by (apply lookup_lt_Some in Hx; lia).
  assert (Hki : k = S i).
  { destruct (decide (S i < k)%nat) as [Hlt|]; [|lia].
    rewrite (Hmid i x x' Hlt Hx Hx') in Hnan. discriminate. }
  rewrite Hki in La, Lb, Lc, Ld |- *.
  split; [repeat split; assumption|]. split.
  - intros ev e Hin He. apply in_app_or in Hin as [Hin|Hin].
    + apply in_flat_map in Hin as (e' & He' & Hin).
      apply epoch_calls_epoch in Hin. apply in_py_range in He'.
      rewrite Hin in He. injection He as <-. lia.
    + destruct ab; [|destruct Hin]. destruct Hin as [<-|[]]. discriminate.
  - destruct ab; [apply last_snoc|]. exfalso.
    destruct Hlast as [_ Hlast].
    rewrite (Hlast x x') in Hnan; [discriminate| |].
    + rewrite last_lookup, La. exact Hx.
    + rewrite last_lookup, Lc. exact Hx'.
Qed.

(** C3 (amended): a run that is aborted on a NaN loss returns the metrics
    collected so far: all four sequences have one length [k], the number
    of epochs evaluated, with [1 <= k <= nb_epochs + 1], and the NaN is
    the last train or test loss. *)
Theorem aborted_run_lengths a metrics log :
  train_network a = (OK metrics, log) ->
  In (EvPrint nan_message) log ->
  exists (k : nat) tl ta el ea,
    metrics = mk_metrics tl ta el ea /\
    (length tl = k /\ length ta = k /\ length el = k /\ length ea = k) /\
    (1 <= k)%nat /\ Z.of_nat k <= nb_epochs a + 1 /\
    exists x x', last tl = Some x /\ last el = Some x'
                 /\ np_isnan x' || np_isnan x = true.
Proof.
  intros H Hin.
  apply train_network_OK in H as (ctx & k & tl & ta & el & ea & ab & _ & Hk
                                  & La & Lb & Lc & Ld & -> & -> & Hmid & Hlast).
  destruct ab.
  - exists k, tl, ta, el, ea.
    assert (Hk1 : (1 <= k)%nat).
    { destruct Hlast as (x & _ & Hx & _). destruct tl; [discriminate|].
      cbn in La. lia. }
    repeat split; auto; lia.
  - exfalso. rewrite app_nil_r in Hin.
    apply in_flat_map in Hin as (e' & _ & Hin).
    apply epoch_calls_epoch in Hin. discriminate.
Qed.

(** C9: if the evaluation of an epoch [i < nb_epochs] records a NaN train
    or test loss, the training pass of epoch [i] is still run in full,
    one step of every optimizer on every batch, and only then is the NaN
    detected: the log ends with that training pass followed by the abort
    message. *)
Theorem nan_epoch_still_trains a metrics log :
  train_network a = (OK metrics, log) ->
  exists ctx tl ta el ea,
    setup a = OK ctx /\
    metrics = mk_metrics tl ta el ea /\
    forall (i : nat) x x',
      tl !! i = Some x -> el !! i = Some x' ->
      np_isnan x' || np_isnan x = true ->
      Z.of_nat i < nb_epochs a ->
      exists pre,
        log = pre ++ [EvTrain (Z.of_nat i) (l_optimizers ctx) (l_loss_func ctx)
                        (all_steps_from (l_optimizers ctx) 0 (l_train_loader ctx));
                      EvPrint nan_message].
Proof.
  intros H. apply train_network_OK in H as Hshape.
  destruct Hshape as (ctx & k & tl & ta & el & ea & ab & Hsetup & Hk
                      & La & Lb & Lc & Ld & -> & -> & Hmid & Hlast).
  exists ctx, tl, ta, el, ea. split; [exact Hsetup|]. split; [reflexivity|].
  intros i x x' Hx Hx' Hnan Hi.
  assert (Hlt : (i < k)%nat) by (apply lookup_lt_Some in Hx; lia).
  assert (Hki : k = S i).
  { destruct (decide (S i < k)%nat) as [Hlt'|]; [|lia].
    rewrite (Hmid i x x' Hlt' Hx Hx') in Hnan. discriminate. }
  rewrite Hki in La, Lb, Lc, Ld |- *.
  assert (ab = true) as ->.
  { destruct ab; [reflexivity|]. destruct Hlast as [_ Hlast].
    rewrite (Hlast x x') in Hnan; [discriminate| |].
    - rewrite last_lookup, La. exact Hx.
    - rewrite last_lookup, Lc. exact Hx'. }
  rewrite py_range_S, flat_map_app. cbn [flat_map]. rewrite app_nil_r.
  unfold epoch_calls at 2. apply Z.ltb_lt in Hi. rewrite Hi.
  exists (flat_map (epoch_calls (nb_epochs a) (l_train_loader ctx)
                      (l_optimizers ctx) (l_loss_func ctx))
            (py_range (Z.of_nat i))
          ++ [EvUpdateMetrics "train" (Z.of_nat i) (l_loss_func ctx);
              EvUpdateMetrics "test" (Z.of_nat i) (l_loss_func ctx)]).
  rewrite <- !app_assoc. reflexivity.
Qed.

(** ** Runs that are not aborted *)

(** C2: a run that completes with every recorded loss finite returns
    metrics whose four sequences (train and test, loss and accuracy) have
    length [nb_epochs + 1]; its log holds, for each epoch from 0 to
    [nb_epochs] in order, the evaluation of the train set, that of the
    test set and then, when the epoch is not the last, the training pass,
    so that epoch 0 is evaluated before any training step; and every
    evaluation appends exactly one value to each sequence of its phase and
    leaves the other phase as it is. *)
Theorem completed_run_lengths a metrics log :
  0 <= nb_epochs a ->
  train_network a = (OK metrics, log) ->
  (forall phase (pm : gmap string (list float)) losses x,
      metrics !! phase = Some pm -> pm !! "loss" = Some losses ->
      In x losses -> finite_loss x = true) ->
  (exists tl ta el ea, metrics = mk_metrics tl ta el ea)
  /\ (forall phase metric (pm : gmap string (list float)) values,
        metrics !! phase = Some pm -> pm !! metric = Some values ->
        Z.of_nat (length values) = nb_epochs a + 1)
  /\ (exists ctx,
        setup a = OK ctx
        /\ log = flat_map (epoch_calls (nb_epochs a) (l_train_loader ctx)
                             (l_optimizers ctx) (l_loss_func ctx))
                   (py_range (nb_epochs a + 1)))
  /\ (forall model tl ta el ea loader lf e m,
        update_metrics model (mk_metrics tl ta el ea) "train" loader lf e = OK m ->
        exists x y, m = mk_metrics (tl ++ [x]) (ta ++ [y]) el ea)
  /\ (forall model tl ta el ea loader lf e m,
        update_metrics model (mk_metrics tl ta el ea) "test" loader lf e = OK m ->
        exists x y, m = mk_metrics tl ta (el ++ [x]) (ea ++ [y])).
Proof.
  intros Hnb H Hfin.
  apply train_network_OK in H as (ctx & k & tl & ta & el & ea & ab & Hsetup & Hk
                                  & La & Lb & Lc & Ld & -> & -> & Hmid & Hlast).
  assert (ab = false) as ->.
  { destruct ab; [|reflexivity].
    destruct Hlast as (x & x' & Hx & Hx' & Hnan).
    apply last_Some in Hx as [l ->]. apply last_Some in Hx' as [l' ->].
    rewrite (finite_loss_not_nan x), (finite_loss_not_nan x') in Hnan.
    - discriminate.
    - apply (Hfin "test" (phase_metrics (l' ++ [x']) ea) (l' ++ [x']));
        [reflexivity..|]. apply in_app_iff. right. left. reflexivity.
    - apply (Hfin "train" (phase_metrics (l ++ [x]) ta) (l ++ [x]));
        [reflexivity..|]. apply in_app_iff. right. left. reflexivity. }
  destruct Hlast as [Hkn _].
  assert (HkZ : Z.of_nat k = nb_epochs a + 1) by lia.
  split; [eauto|]. split; [|split; [|split]].
  - intros phase metric pm values Hp Hm.
    destruct (mk_metrics_lookup _ _ _ _ _ _ _ _ Hp Hm) as [-> | [-> | [-> | ->]]]; lia.
  - exists ctx. split; [exact Hsetup|]. rewrite app_nil_r, HkZ. reflexivity.
  - intros model tl' ta' el' ea' loader lf e m. unfold update_metrics.
    destruct (evaluate model loader lf) as [[x y]|]; [|discriminate].
    rewrite record_train. intros [= <-]. eauto.
  - intros model tl' ta' el' ea' loader lf e m. unfold update_metrics.
    destruct (evaluate model loader lf) as [[x y]|]; [|discriminate].
    rewrite record_test. intros [= <-]. eauto.
Qed.

(** ** Optimizers and loss *)

Lemma all_steps_single (o : option optimizer) (loader : list Batch) i :
  all_steps_from [o] i loader = map (fun j => Step j o) (seq i (length loader)).
Proof.
  unfold all_steps_from. generalize (length loader). intros n. revert i.
  induction n as [|n IH]; intros i; cbn; [reflexivity|]. rewrite IH. reflexivity.
Qed.

(** C6: in a configuration that is accepted, with a supported optimizer
    type and [decorrelation_method = None], the only optimizer created is
    the forward one, over the forward parameters; every training pass is
    given that optimizer alone and every step it takes is a step of it; a
    training pass of a run that returns takes exactly one such step per
    batch. *)
Theorem no_decorrelation_optimizer_when_disabled a ctx :
  decorrelation_method a = None ->
  optimizer_type a = "Adam" \/ optimizer_type a = "SGD" ->
  setup a = OK ctx ->
  exists o,
    optimizer_params o = FwdParams
    /\ l_optimizers ctx = [Some o]
    /\ (forall e opts lf steps,
          In (EvTrain e opts lf steps) (snd (train_network a)) ->
          opts = [Some o]
          /\ Forall (fun s => step_optimizer s = Some o) steps)
    /\ (forall metrics log e opts lf steps,
          train_network a = (OK metrics, log) ->
          In (EvTrain e opts lf steps) log ->
          steps = map (fun j => Step j (Some o))
                    (seq 0 (length (l_train_loader ctx)))).
Proof.
  intros Hm Ht Hs.
  pose proof (setup_OK a ctx Hs) as (_ & Hopts & _).
  rewrite Hm in Hopts. unfold make_optimizers in Hopts.
  assert (exists o, make_fwd_optimizer (optimizer_type a) (fwd_lr a) = Some o
                    /\ optimizer_params o = FwdParams) as (o & Ho & Hp).
  { unfold make_fwd_optimizer. destruct Ht as [-> | ->]; cbn; eauto. }
  rewrite Ho in Hopts. exists o. split; [exact Hp|]. split; [exact Hopts|].
  split.
  - intros e opts lf steps Hin.
    pose proof (train_network_log a ctx Hs) as Hlog.
    rewrite Forall_forall in Hlog. apply list_elem_of_In in Hin.
    specialize (Hlog _ Hin). cbn in Hlog.
    destruct Hlog as (-> & _ & Hsteps). rewrite Hopts in Hsteps |- *.
    split; [reflexivity|]. eapply Forall_impl; [exact Hsteps|].
    intros s [Heq|[]]. symmetry. exact Heq.
  - intros metrics log e opts lf steps Hrun Hin.
    apply train_network_OK in Hrun
      as (ctx' & k & tl & ta & el & ea & ab & Hs' & _ & _ & _ & _ & _ & _ & Hlog & _).
    subst log.
    rewrite Hs in Hs'. injection Hs' as <-.
    apply in_app_or in Hin as [Hin|Hin].
    + apply in_flat_map in Hin as (e' & _ & Hin).
      unfold epoch_calls in Hin. cbn in Hin.
      destruct Hin as [Hin|[Hin|Hin]]; try discriminate.
      destruct (e' <? nb_epochs a); [|destruct Hin].
      destruct Hin as [Hin|[]]. injection Hin as <- <- <- <-.
      rewrite Hopts. apply all_steps_single.
    + destruct ab; [|destruct Hin]. destruct Hin as [Hin|[]]. discriminate.
Qed.

Lemma sum_axis1_squared_error (input : Tensor) : forall onehot : Tensor,
  torch_sum_axis1 (zip_with (zip_with squared_error) input onehot)
  = zip_with sample_sse input onehot.
Proof.
  induction input as [|row input IH]; intros [|orow onehot]; cbn;
    try reflexivity.
  rewrite <- IH. reflexivity.
Qed.

(** C7: the loss function is chosen from [loss_func_type] before the loop
    and every evaluation and training pass of the run is called with that
    one choice.  For "CCE" it is torch's cross-entropy of the outputs and
    the integer labels, whatever the one-hot encoding; for "MSE" it is,
    per sample, the squared error against the one-hot row summed over the
    classes, with no division by their number. *)
Theorem loss_strategy_selection :
  (exists f, make_loss_func "CCE" = Some f
             /\ forall input target onehot,
                 f input target onehot = CrossEntropyLoss_none input target)
  /\ (exists g, make_loss_func "MSE" = Some g
                /\ forall input target onehot,
                    same_shape input onehot = true ->
                    g input target onehot = OK (zip_with sample_sse input onehot))
  /\ (forall a ev lf,
        In ev (snd (train_network a)) -> event_loss ev = Some lf ->
        lf = make_loss_func (loss_func_type a)).
Proof.
  split; [|split].
  - eexists. split; [reflexivity|]. reflexivity.
  - eexists. split; [reflexivity|]. intros input target onehot Hshape. cbn beta.
    unfold MSELoss_none. rewrite Hshape, sum_axis1_squared_error. reflexivity.
  - intros a ev lf Hin Hev.
    destruct (setup a) as [ctx|e] eqn:Hs.
    + pose proof (train_network_log a ctx Hs) as Hlog.
      pose proof (setup_OK a ctx Hs) as (_ & _ & Hlf).
      rewrite Forall_forall in Hlog. apply list_elem_of_In in Hin.
      specialize (Hlog _ Hin). rewrite <- Hlf.
      destruct ev; cbn in Hlog, Hev; try discriminate;
        injection Hev as <-; tauto.
    + rewrite (train_network_setup_raises a e Hs) in Hin. destruct Hin.
Qed.

Lemma construct_optimizers_accepts optimizer_type fwd_lr method decor_lr :
  nonnegative_lr fwd_lr = true ->
  nonnegative_lr decor_lr = true ->
  construct_optimizers (make_optimizers optimizer_type fwd_lr method decor_lr)
  = OK (make_optimizers optimizer_type fwd_lr method decor_lr).
Proof.
  unfold nonnegative_lr. intros Hf Hd.
  apply andb_true_iff in Hf as [Hf1 Hf2]. apply andb_true_iff in Hd as [Hd1 Hd2].
  unfold construct_optimizers, make_optimizers, make_fwd_optimizer.
  destruct (String.eqb optimizer_type "Adam");
    [|destruct (String.eqb optimizer_type "SGD")];
    destruct method; cbn; rewrite ?Hf1, ?Hf2, ?Hd1, ?Hd2; reflexivity.
Qed.

(** C10: an optimizer type other than "Adam" and "SGD", or a loss type
    other than "CCE" and "MSE", raises nothing before the loop: when every
    other step of the set-up goes through (the seed is accepted, the
    loaders and the network are constructed, the network is moved to the
    device, the learning rates are numbers that are at least zero), the
    forward optimizer (the loss function) is [None], the loop is entered,
    its first call being the evaluation of the train set at epoch 0 with
    that loss function, and every training pass is given that list of
    optimizers and that loss function. *)
Theorem unknown_optimizer_or_loss_enters_loop a trl tel model model' :
  seed_rngs (seed a) = OK tt ->
  construct_dataloaders (resolve_dataset (dataset a)) (batch_size a) (device a)
  = OK (trl, tel) ->
  DecorNet (seed a) (fst (io_sizes (resolve_dataset (dataset a))))
    (snd (io_sizes (resolve_dataset (dataset a)))) (n_hidden_layers a)
    (hidden_layer_size a) (decor_lr a) (decorrelation_method a) (bias a)
  = OK model ->
  to_device model (device a) = OK model' ->
  nonnegative_lr (fwd_lr a) = true ->
  nonnegative_lr (decor_lr a) = true ->
  0 <= nb_epochs a ->
  exists ctx rest,
    setup a = OK ctx
    /\ snd (train_network a)
       = EvUpdateMetrics "train" 0 (l_loss_func ctx) :: rest
    /\ (forall e opts lf steps,
          In (EvTrain e opts lf steps) (snd (train_network a)) ->
          opts = l_optimizers ctx /\ lf = l_loss_func ctx)
    /\ (optimizer_type a <> "Adam" -> optimizer_type a <> "SGD" ->
        hd_error (l_optimizers ctx) = Some None)
    /\ (loss_func_type a <> "CCE" -> loss_func_type a <> "MSE" ->
        l_loss_func ctx = None).
Proof.
  intros Hseed Hc Hd Hdev Hflr Hdlr Hnb.
  assert (exists ctx, setup a = OK ctx) as [ctx Hs].
  { unfold setup. rewrite Hseed, Hc. destruct io_sizes as [i o]. cbn in Hd.
    rewrite Hd, Hdev, (construct_optimizers_accepts _ _ _ _ Hflr Hdlr). eauto. }
  pose proof (setup_OK a ctx Hs) as (_ & Hopts & Hlf).
  assert (exists rest, snd (train_network a)
                       = EvUpdateMetrics "train" 0 (l_loss_func ctx) :: rest)
    as [rest Hrest].
  { rewrite train_network_unfold, Hs. unfold train_loop, py_range.
    destruct (Z.to_nat (nb_epochs a + 1)) as [|n] eqn:Hn; [lia|].
    cbn [seq map epoch_loop]. unfold call_update_metrics at 1.
    unfold bind at 1.
    destruct update_metrics; [|eauto].
    match goal with |- context [let '(_, _) := ?t in _] => destruct t end.
    cbn. eauto. }
  exists ctx, rest. split; [exact Hs|]. split; [exact Hrest|]. split; [|split].
  - intros e opts lf steps Hin.
    pose proof (train_network_log a ctx Hs) as Hlog.
    rewrite Forall_forall in Hlog. apply list_elem_of_In in Hin.
    specialize (Hlog _ Hin). cbn in Hlog. tauto.
  - intros H1 H2. rewrite Hopts. unfold make_optimizers, make_fwd_optimizer.
    apply String.eqb_neq in H1, H2. rewrite H1, H2.
    destruct (decorrelation_method a); reflexivity.
  - intros H1 H2. rewrite Hlf. unfold make_loss_func.
    apply String.eqb_neq in H1, H2. rewrite H1, H2. reflexivity.
Qed.

End Claims.

(** * Instances of the claims on the scripted backend *)

Lemma foldiak_exits_before_training_witness :
  run (B := Scripted.backend Scripted.steady) (Scripted.cfg (Some "foldiak"))
  = (Exited, [RunWandbInit (Scripted.cfg (Some "foldiak"))
                (c_wandb (Scripted.cfg (Some "foldiak")))]).
Proof.
  apply (foldiak_exits_before_training (B := Scripted.backend Scripted.steady)).
  reflexivity.
Defined.

Lemma configuration_errors_abort_before_training_witness :
  train_network (B := Scripted.backend Scripted.steady)
    (Scripted.args_with 1 "SVHN" 3 "CCE" "Adam")
  = (Raise ConfigurationError, []).
Proof.
  apply (configuration_errors_abort_before_training
           (B := Scripted.backend Scripted.steady)).
  left. cbn. repeat split; discriminate.
Defined.

Lemma nan_loss_stops_loop_witness :
  exists tl ta el ea,
    mk_metrics [nan] [0.5%float] [1%float] [0.5%float] = mk_metrics tl ta el ea /\
    forall (i : nat) x x',
      tl !! i = Some x -> el !! i = Some x' ->
      np_isnan x' || np_isnan x = true ->
      (length tl = S i /\ length ta = S i /\ length el = S i /\ length ea = S i)
      /\ (forall ev e, In ev (snd Scripted.nan_run) ->
                       event_epoch ev = Some e -> e <= Z.of_nat i)
      /\ last (snd Scripted.nan_run) = Some (EvPrint nan_message).
Proof.
  apply (nan_loss_stops_loop (B := Scripted.backend Scripted.nan_first)
           (Scripted.args 2 None)).
  vm_compute. reflexivity.
Defined.

(** C1, as stated, fails on an infinite loss: the train loss recorded at
    epoch 0 is infinite, yet the run goes on to epoch 1, records two values
    per sequence and logs no abort. *)
Lemma infinite_loss_does_not_stop_loop :
  Scripted.infinite_run
  = (OK (mk_metrics [infinity; 1%float] [0.5%float; 0.5%float]
           [1%float; 1%float] [0.5%float; 0.5%float]),
     snd Scripted.infinite_run)
  /\ ~ (forall (i : nat) x x',
          [infinity; 1%float] !! i = Some x -> [1%float; 1%float] !! i = Some x' ->
          finite_loss x' && finite_loss x = false ->
          (length [infinity; 1%float] = S i)
          /\ (forall ev e, In ev (snd Scripted.infinite_run) ->
                           event_epoch ev = Some e -> e <= Z.of_nat i)
          /\ last (snd Scripted.infinite_run) = Some (EvPrint nan_message)).
Proof.
  split; [vm_compute; reflexivity|].
  intros H. destruct (H 0%nat infinity 1%float eq_refl eq_refl eq_refl) as [Hlen _].
  discriminate Hlen.
Qed.

Lemma completed_run_lengths_witness :
  0 <= nb_epochs (Scripted.args 2 None)
  /\ exists tl ta el ea,
      mk_metrics [1%float; 1%float; 1%float] [0.5%float; 0.5%float; 0.5%float]
        [1%float; 1%float; 1%float] [0.5%float; 0.5%float; 0.5%float]
      = mk_metrics tl ta el ea.
Proof.
  split; [cbn; lia|].
  refine (proj1 (completed_run_lengths (B := Scripted.backend Scripted.steady)
                   (Scripted.args 2 None) _ (snd Scripted.steady_run) _ _ _)).
  - cbn. lia.
  - vm_compute. reflexivity.
  - intros phase pm losses x Hp Hl Hin.
    destruct (mk_metrics_lookup _ _ _ _ _ _ _ _ Hp Hl) as [-> | [-> | [-> | ->]]];
      cbn in Hin; repeat (destruct Hin as [<-|Hin]; [reflexivity|]);
      destruct Hin.
Defined.

Lemma aborted_run_lengths_witness :
  In (EvPrint nan_message) (snd Scripted.nan_run)
  /\ exists (k : nat) tl ta el ea,
      mk_metrics [nan] [0.5%float] [1%float] [0.5%float] = mk_metrics tl ta el ea /\
      (length tl = k /\ length ta = k /\ length el = k /\ length ea = k) /\
      (1 <= k)%nat /\ Z.of_nat k <= nb_epochs (Scripted.args 2 None) + 1 /\
      exists x x', last tl = Some x /\ last el = Some x'
                   /\ np_isnan x' || np_isnan x = true.
Proof.
  assert (Hin : In (EvPrint nan_message) (snd Scripted.nan_run)).
  { vm_compute. do 3 right. left. reflexivity. }
  split; [exact Hin|].
  apply (aborted_run_lengths (B := Scripted.backend Scripted.nan_first)
           (Scripted.args 2 None) _ (snd Scripted.nan_run)).
  - vm_compute. reflexivity.
  - exact Hin.
Defined.

(** C3, as stated, fails when the NaN is recorded by the last evaluation:
    with [nb_epochs = 0] the run is aborted on the NaN train loss of epoch
    0, and every sequence has length 1, which is [nb_epochs + 1]. *)
Lemma abort_at_last_epoch_has_full_length :
  Scripted.nan_last_run
  = (OK (mk_metrics [nan] [0.5%float] [1%float] [0.5%float]),
     snd Scripted.nan_last_run)
  /\ In (EvPrint nan_message) (snd Scripted.nan_last_run)
  /\ ~ (forall phase metric (pm : gmap string (list float)) values,
          mk_metrics [nan] [0.5%float] [1%float] [0.5%float] !! phase = Some pm ->
          pm !! metric = Some values ->
          Z.of_nat (length values) < nb_epochs (Scripted.args 0 None) + 1).
Proof.
  split; [vm_compute; reflexivity|]. split.
  - vm_compute. do 2 right. left. reflexivity.
  - intros H.
    specialize (H "train" "loss" (phase_metrics [nan] [0.5%float]) [nan]
                  eq_refl eq_refl).
    cbn in H. lia.
Qed.

Lemma nan_epoch_still_trains_witness :
  exists ctx tl ta el ea,
    setup (B := Scripted.backend Scripted.nan_first) (Scripted.args 2 None) = OK ctx /\
    mk_metrics [nan] [0.5%float] [1%float] [0.5%float] = mk_metrics tl ta el ea /\
    forall (i : nat) x x',
      tl !! i = Some x -> el !! i = Some x' ->
      np_isnan x' || np_isnan x = true ->
      Z.of_nat i < nb_epochs (Scripted.args 2 None) ->
      exists pre,
        snd Scripted.nan_run
        = pre ++ [EvTrain (Z.of_nat i) (l_optimizers ctx) (l_loss_func ctx)
                    (all_steps_from (l_optimizers ctx) 0 (l_train_loader ctx));
                  EvPrint nan_message].
Proof.
  apply (nan_epoch_still_trains (B := Scripted.backend Scripted.nan_first)
           (Scripted.args 2 None)).
  vm_compute. reflexivity.
Defined.

Lemma no_decorrelation_optimizer_when_disabled_witness :
  exists ctx,
    setup (B := Scripted.backend Scripted.steady) (Scripted.args 1 None) = OK ctx
    /\ exists o,
        optimizer_params o = FwdParams
        /\ l_optimizers ctx = [Some o]
        /\ (forall e opts lf steps,
              In (EvTrain e opts lf steps)
                (snd (train_network (B := Scripted.backend Scripted.steady)
                        (Scripted.args 1 None))) ->
              opts = [Some o]
              /\ Forall (fun s => step_optimizer s = Some o) steps)
        /\ (forall metrics log e opts lf steps,
              train_network (B := Scripted.backend Scripted.steady)
                (Scripted.args 1 None) = (OK metrics, log) ->
              In (EvTrain e opts lf steps) log ->
              steps = map (fun j => Step j (Some o))
                        (seq 0 (length (l_train_loader ctx)))).
Proof.
  eexists. split; [reflexivity|].
  apply (no_decorrelation_optimizer_when_disabled
           (B := Scripted.backend Scripted.steady) (Scripted.args 1 None)).
  - reflexivity.
  - left. reflexivity.
  - reflexivity.
Defined.

Lemma loss_strategy_selection_witness :
  same_shape (N := Scripted.numeric) [[1; 2]; [0; 3]] [[0; 1]; [0; 1]] = true
  /\ exists g,
      make_loss_func (N := Scripted.numeric) "MSE" = Some g
      /\ g [[1; 2]; [0; 3]] [1; 1] [[0; 1]; [0; 1]] = OK [2; 4].
Proof.
  split; [reflexivity|].
  destruct (loss_strategy_selection (B := Scripted.backend Scripted.steady))
    as (_ & (g & Hg & Hmse) & _).
  exists g. split; [exact Hg|]. rewrite Hmse by reflexivity. reflexivity.
Defined.

Lemma unknown_optimizer_or_loss_enters_loop_witness :
  exists ctx rest,
    setup (B := Scripted.backend Scripted.steady) Scripted.unknown_types = OK ctx
    /\ snd (train_network (B := Scripted.backend Scripted.steady)
              Scripted.unknown_types)
       = EvUpdateMetrics "train" 0 (l_loss_func ctx) :: rest
    /\ (forall e opts lf steps,
          In (EvTrain e opts lf steps)
            (snd (train_network (B := Scripted.backend Scripted.steady)
                    Scripted.unknown_types)) ->
          opts = l_optimizers ctx /\ lf = l_loss_func ctx)
    /\ (optimizer_type Scripted.unknown_types <> "Adam" ->
        optimizer_type Scripted.unknown_types <> "SGD" ->
        hd_error (l_optimizers ctx) = Some None)
    /\ (loss_func_type Scripted.unknown_types <> "CCE" ->
        loss_func_type Scripted.unknown_types <> "MSE" ->
        l_loss_func ctx = None).
Proof.
  apply (unknown_optimizer_or_loss_enters_loop
           (B := Scripted.backend Scripted.steady) Scripted.unknown_types
           [false] [true] 0%nat 0%nat).
  - reflexivity.
  - reflexivity.
  - reflexivity.
  - reflexivity.
  - reflexivity.
  - reflexivity.
  - cbn. lia.
Defined.

(** On the scripted backend, whose passes do not look at the loss function
    or at the optimizer, the run with unknown types evaluates and trains
    with [None] for both. *)
Example unknown_types_run :
  snd (train_network (B := Scripted.backend Scripted.steady)
         Scripted.unknown_types)
  = [EvUpdateMetrics "train" 0 None; EvUpdateMetrics "test" 0 None;
     EvTrain 0 [None] None [Step 0 None];
     EvUpdateMetrics "train" 1 None; EvUpdateMetrics "test" 1 None].
Proof. vm_compute. reflexivity. Qed.

(** * Further properties of the code *)

(** ** Datasets and sizes (lines 39-46 and 60-70) *)

(** A dataset name other than the four that the code tests for is kept as
    a string and gives the default sizes, those of MNIST; nothing is raised
    at this point. *)
Theorem unrecognised_dataset_defaults d :
  d <> "MNIST" -> d <> "CIFAR10" -> d <> "CIFAR100" -> d <> "TIN" ->
  resolve_dataset d = DatasetName d
  /\ io_sizes (resolve_dataset d) = (28 * 28, 10).
Proof.
  intros H1 H2 H3 H4. apply String.eqb_neq in H1, H2, H3, H4.
  assert (Hr : resolve_dataset d = DatasetName d).
  { unfold resolve_dataset. rewrite H1, H2, H3. reflexivity. }
  split; [exact Hr|]. rewrite Hr. unfold io_sizes. cbn. rewrite H4. reflexivity.
Qed.

Lemma unrecognised_dataset_defaults_witness :
  resolve_dataset "SVHN" = DatasetName "SVHN"
  /\ io_sizes (resolve_dataset "SVHN") = (28 * 28, 10).
Proof. apply unrecognised_dataset_defaults; discriminate. Defined.

(** Whatever [tv_dataset] holds, the sizes are one of the four pairs of the
    table: the network is never given other sizes. *)
Theorem io_sizes_table d :
  In (io_sizes d)
    [(28 * 28, 10); (32 * 32 * 3, 10); (32 * 32 * 3, 100); (64 * 64 * 3, 200)].
Proof.
  destruct d as [[| |]|s]; unfold io_sizes; cbn; auto.
  destruct (String.eqb s "TIN"); auto.
Qed.

(** Whatever the dataset name, the network of a run is the one
    constructed with one of the four pairs of sizes of the table, then
    moved to the device: the network is never given other sizes. *)
Theorem network_sizes_in_table {N : Numeric} {B : Backend} a ctx :
  setup a = OK ctx ->
  exists in_size out_size,
    In (in_size, out_size)
      [(28 * 28, 10); (32 * 32 * 3, 10); (32 * 32 * 3, 100); (64 * 64 * 3, 200)]
    /\ to_device
         (init_net (seed a) in_size out_size (n_hidden_layers a)
            (hidden_layer_size a) (decor_lr a) (decorrelation_method a)
            (bias a))
         (device a)
       = OK (l_model ctx).
Proof.
  intros Hs. pose proof (setup_model a ctx Hs) as Hm.
  pose proof (io_sizes_table (resolve_dataset (dataset a))) as Hin.
  destruct (io_sizes (resolve_dataset (dataset a))) as [i o].
  exists i, o. split; [exact Hin|exact Hm].
Qed.

(** ** Seeding and the optimizer constructors (lines 36-37 and 88-103) *)

(** A seed that [np.random.seed] does not accept, one below 0 or above
    [2^32 - 1], makes [train_network] raise before anything else is done:
    a [ValueError], or the [RuntimeError] of [torch.manual_seed] when the
    seed is also outside the range of line 36. *)
Theorem rejected_seed_raises_first {N : Numeric} {B : Backend} a :
  seed a < 0 \/ 2 ^ 32 - 1 < seed a ->
  exists ex,
    train_network a = (Raise ex, [])
    /\ (- 2 ^ 63 <= seed a <= 2 ^ 64 - 1 -> ex = ValueError)
    /\ (seed a < - 2 ^ 63 \/ 2 ^ 64 - 1 < seed a -> ex = RuntimeError).
Proof.
  intros H.
  assert (Hs : exists ex, seed_rngs (seed a) = Raise ex
                /\ (- 2 ^ 63 <= seed a <= 2 ^ 64 - 1 -> ex = ValueError)
                /\ (seed a < - 2 ^ 63 \/ 2 ^ 64 - 1 < seed a -> ex = RuntimeError)).
  { unfold seed_rngs, torch_manual_seed, np_random_seed.
    destruct ((seed a <? - 2 ^ 63) || (2 ^ 64 - 1 <? seed a)) eqn:Ht.
    - exists RuntimeError. split; [reflexivity|]. split; [|reflexivity].
      intros Hr. apply orb_true_iff in Ht as [Ht|Ht]; apply Z.ltb_lt in Ht; lia.
    - apply orb_false_iff in Ht as [Ht1 Ht2].
      apply Z.ltb_ge in Ht1, Ht2.
      assert (((seed a <? 0) || (2 ^ 32 - 1 <? seed a)) = true) as ->.
      { apply orb_true_iff. destruct H as [H|H]; [left|right];
          apply Z.ltb_lt; exact H. }
      exists ValueError. split; [reflexivity|]. split; [reflexivity|]. lia. }
  destruct Hs as (ex & Hs & H1 & H2). exists ex. split; [|auto].
  apply train_network_setup_raises. unfold setup. rewrite Hs. reflexivity.
Qed.

(** With a decorrelation method and a negative [decor_lr], in a set-up
    that goes through up to the optimizers, the constructor of line 102
    raises a [ValueError]: the loop is not entered. *)
Theorem negative_decor_lr_raises {N : Numeric} {B : Backend}
    a trl tel model model' m :
  seed_rngs (seed a) = OK tt ->
  construct_dataloaders (resolve_dataset (dataset a)) (batch_size a) (device a)
  = OK (trl, tel) ->
  DecorNet (seed a) (fst (io_sizes (resolve_dataset (dataset a))))
    (snd (io_sizes (resolve_dataset (dataset a)))) (n_hidden_layers a)
    (hidden_layer_size a) (decor_lr a) (decorrelation_method a) (bias a)
  = OK model ->
  to_device model (device a) = OK model' ->
  decorrelation_method a = Some m ->
  PrimFloat.ltb (decor_lr a) 0 = true ->
  train_network a = (Raise ValueError, []).
Proof.
  intros Hseed Hc Hd Hdev Hm Hlr.
  apply train_network_setup_raises. unfold setup.
  rewrite Hseed, Hc. destruct io_sizes as [i o]. cbn in Hd.
  rewrite Hd, Hdev, Hm.
  unfold construct_optimizers, make_optimizers. cbn. rewrite Hlr. cbn.
  rewrite andb_false_r. reflexivity.
Qed.

(** ** The train loop (lines 116-146) *)

Section LoopProperties.

Context {N : Numeric} {B : Backend}.

Lemma epoch_loop_in_range nb trl tel opts lf epochs :
  (forall e, In e epochs -> 0 <= e <= nb) ->
  forall model metrics,
    Forall (call_in_range nb)
      (snd (epoch_loop nb trl tel opts lf epochs model metrics)).
Proof.
  induction epochs as [|e rest IH]; intros He model metrics; cbn [epoch_loop].
  - constructor.
  - assert (Hr : 0 <= e <= nb) by (apply He; left; reflexivity).
    apply bind_log_Forall; [repeat constructor; cbn; lia|]. intros m1.
    apply bind_log_Forall; [repeat constructor; cbn; lia|]. intros m2.
    apply bind_log_Forall.
    { destruct (e <? nb) eqn:Hlt; [|constructor].
      apply Z.ltb_lt in Hlt. unfold call_train.
      destruct (train model trl opts e lf) as [r steps].
      repeat constructor; cbn; lia. }
    intros model'. apply bind_log_Forall; [constructor|].
    intros [|].
    + apply bind_log_Forall; [repeat constructor|]. intros _. constructor.
    + apply IH. intros e' He'. apply He. right. exact He'.
Qed.

(** Whatever the outcome of a run, every evaluation it makes is at an epoch
    from 0 to [nb_epochs] and every training pass at an epoch from 0 to
    [nb_epochs - 1]: the network is never trained after its last
    evaluation. *)
Theorem calls_stay_in_epoch_range a :
  Forall (call_in_range (nb_epochs a)) (snd (train_network a)).
Proof.
  rewrite train_network_unfold. destruct (setup a) as [ctx|e]; [|constructor].
  apply epoch_loop_in_range. intros e He. apply in_py_range in He. lia.
Qed.

(** With a negative [nb_epochs] the range of the loop is empty: once the
    loaders and the network are built, [train_network] returns the initial,
    empty metrics without a single evaluation or training pass. *)
Theorem negative_epochs_no_iteration a ctx :
  nb_epochs a < 0 ->
  setup a = OK ctx ->
  train_network a = (OK init_metric, []).
Proof.
  intros Hnb Hs. rewrite train_network_unfold, Hs.
  pose proof (setup_OK a ctx Hs) as (Hm & _ & _).
  unfold train_loop, py_range.
  replace (Z.to_nat (nb_epochs a + 1)) with 0%nat by lia.
  cbn. rewrite Hm. reflexivity.
Qed.

(** An exception raised by the first evaluation is the outcome of
    [train_network]: the call is the only one logged, nothing is trained
    and no metrics are returned. *)
Theorem evaluation_error_propagates a ctx ex :
  setup a = OK ctx ->
  0 <= nb_epochs a ->
  evaluate (l_model ctx) (l_train_loader ctx) (l_loss_func ctx) = Raise ex ->
  train_network a
  = (Raise ex, [EvUpdateMetrics "train" 0 (l_loss_func ctx)]).
Proof.
  intros Hs Hnb Hev. rewrite train_network_unfold, Hs.
  unfold train_loop, py_range.
  destruct (Z.to_nat (nb_epochs a + 1)) as [|n] eqn:Hn; [lia|].
  cbn [seq map epoch_loop].
  unfold call_update_metrics at 1, update_metrics at 1.
  change (Z.of_nat 0) with 0. rewrite Hev. reflexivity.
Qed.

(** A run that returns without having recorded a NaN loss, whatever else
    it recorded, infinite losses included, was not aborted: nothing was
    printed and every sequence has length [nb_epochs + 1]. *)
Theorem no_nan_runs_all_epochs a metrics log :
  0 <= nb_epochs a ->
  train_network a = (OK metrics, log) ->
  (forall phase (pm : gmap string (list float)) losses x,
      metrics !! phase = Some pm -> pm !! "loss" = Some losses ->
      In x losses -> np_isnan x = false) ->
  ~ In (EvPrint nan_message) log
  /\ forall phase metric (pm : gmap string (list float)) values,
      metrics !! phase = Some pm -> pm !! metric = Some values ->
      Z.of_nat (length values) = nb_epochs a + 1.
Proof.
  intros Hnb H Hnan.
  apply train_network_OK in H as (ctx & k & tl & ta & el & ea & ab & Hsetup & Hk
                                  & La & Lb & Lc & Ld & -> & -> & Hmid & Hlast).
  assert (ab = false) as ->.
  { destruct ab; [|reflexivity].
    destruct Hlast as (x & x' & Hx & Hx' & Hn).
    apply last_Some in Hx as [l ->]. apply last_Some in Hx' as [l' ->].
    rewrite (Hnan "test" (phase_metrics (l' ++ [x']) ea) (l' ++ [x']) x'),
      (Hnan "train" (phase_metrics (l ++ [x]) ta) (l ++ [x]) x) in Hn;
      try reflexivity; try (apply in_app_iff; right; left; reflexivity).
    discriminate. }
  destruct Hlast as [Hkn _]. split.
  - rewrite app_nil_r. intros Hin. apply in_flat_map in Hin as (e' & _ & Hin).
    apply epoch_calls_epoch in Hin. discriminate.
  - intros phase metric pm values Hp Hm.
    destruct (mk_metrics_lookup _ _ _ _ _ _ _ _ Hp Hm) as [-> | [-> | [-> | ->]]];
      lia.
Qed.

(** In a run that returns, the abort message is logged exactly when a NaN
    train or test loss was recorded. *)
Theorem abort_message_iff_nan a metrics log :
  train_network a = (OK metrics, log) ->
  exists tl ta el ea,
    metrics = mk_metrics tl ta el ea
    /\ (In (EvPrint nan_message) log
        <-> exists (i : nat) x x',
            tl !! i = Some x /\ el !! i = Some x'
            /\ np_isnan x' || np_isnan x = true).
Proof.
  intros H.
  apply train_network_OK in H as (ctx & k & tl & ta & el & ea & ab & Hsetup & Hk
                                  & La & Lb & Lc & Ld & -> & -> & Hmid & Hlast).
  exists tl, ta, el, ea. split; [reflexivity|]. split.
  - intros Hin. destruct ab.
    + destruct Hlast as (x & x' & Hx & Hx' & Hn).
      rewrite last_lookup in Hx, Hx'. rewrite La in Hx. rewrite Lc in Hx'.
      exists (pred k), x, x'. auto.
    + rewrite app_nil_r in Hin. apply in_flat_map in Hin as (e' & _ & Hin).
      apply epoch_calls_epoch in Hin. discriminate.
  - intros (i & x & x' & Hx & Hx' & Hn). destruct ab.
    + apply in_or_app. right. left. reflexivity.
    + exfalso. destruct Hlast as [_ Hlast].
      assert (Hi : (i < k)%nat) by (apply lookup_lt_Some in Hx; lia).
      destruct (decide (S i < k)%nat) as [Hlt|Hge].
      * rewrite (Hmid i x x' Hlt Hx Hx') in Hn. discriminate.
      * assert (i = pred k) as -> by lia.
        rewrite (Hlast x x') in Hn; [discriminate| |].
        -- rewrite last_lookup, La. exact Hx.
        -- rewrite last_lookup, Lc. exact Hx'.
Qed.

(** Every store that [train_network] returns has its four sequences of
    one length, at most the number of epochs of the range. *)
Theorem returned_sequences_have_one_length a metrics log :
  train_network a = (OK metrics, log) ->
  exists k : nat,
    (k <= Z.to_nat (nb_epochs a + 1))%nat
    /\ forall phase metric (pm : gmap string (list float)) values,
        metrics !! phase = Some pm -> pm !! metric = Some values ->
        length values = k.
Proof.
  intros H.
  apply train_network_OK in H as (ctx & k & tl & ta & el & ea & ab & Hsetup & Hk
                                  & La & Lb & Lc & Ld & -> & _).
  exists k. split; [exact Hk|].
  intros phase metric pm values Hp Hm.
  destruct (mk_metrics_lookup _ _ _ _ _ _ _ _ Hp Hm) as [-> | [-> | [-> | ->]]];
    assumption.
Qed.

End LoopProperties.

Section PassProperties.

Context {N : Numeric} {B : Backend}.

Lemma count_train_calls nb trl opts lf (k : nat) :
  0 <= nb ->
  length (List.filter is_train_call
            (flat_map (epoch_calls nb trl opts lf) (py_range (Z.of_nat k))))
  = Nat.min k (Z.to_nat nb).
Proof.
  intros Hnb. induction k as [|k IH]; [reflexivity|].
  rewrite py_range_S, flat_map_app, List.filter_app, length_app, IH.
  cbn [flat_map]. rewrite app_nil_r. unfold epoch_calls. cbn -[Nat.min].
  destruct (Z.of_nat k <? nb) eqn:Hlt; cbn -[Nat.min].
  - apply Z.ltb_lt in Hlt. lia.
  - apply Z.ltb_ge in Hlt. lia.
Qed.

(** A run that returns after evaluating [k] epochs has made
    [min k nb_epochs] training passes: [nb_epochs] of them when it ran to
    the end, one per evaluated epoch when it was aborted earlier. *)
Theorem training_pass_count a metrics log :
  0 <= nb_epochs a ->
  train_network a = (OK metrics, log) ->
  exists tl ta el ea,
    metrics = mk_metrics tl ta el ea
    /\ length (List.filter is_train_call log)
       = Nat.min (length tl) (Z.to_nat (nb_epochs a)).
Proof.
  intros Hnb H.
  apply train_network_OK in H as (ctx & k & tl & ta & el & ea & ab & Hsetup & Hk
                                  & La & Lb & Lc & Ld & -> & -> & _).
  exists tl, ta, el, ea. split; [reflexivity|].
  rewrite List.filter_app, length_app, count_train_calls, La by exact Hnb.
  destruct ab; cbn; lia.
Qed.

(** The values recorded for epoch 0 are those of the network as it was
    built, before any training step, and both phases are evaluated on that
    same network. *)
Theorem first_evaluation_is_of_initial_model a metrics log :
  0 <= nb_epochs a ->
  train_network a = (OK metrics, log) ->
  exists ctx x y x' y' tl ta el ea,
    setup a = OK ctx
    /\ evaluate (l_model ctx) (l_train_loader ctx) (l_loss_func ctx) = OK (x, y)
    /\ evaluate (l_model ctx) (l_test_loader ctx) (l_loss_func ctx) = OK (x', y')
    /\ metrics = mk_metrics (x :: tl) (y :: ta) (x' :: el) (y' :: ea).
Proof.
  intros Hnb H. rewrite train_network_unfold in H.
  destruct (setup a) as [ctx|] eqn:Hs; [|discriminate].
  pose proof (setup_OK a ctx Hs) as (Hm & _ & _).
  unfold train_loop, py_range in H. rewrite Hm in H. unfold init_metric in H.
  destruct (Z.to_nat (nb_epochs a + 1)) as [|n] eqn:Hn; [lia|].
  cbn [seq map epoch_loop] in H.
  apply bind_OK in H as (m1 & l1 & l1' & H1 & H & ->).
  apply call_update_metrics_train_OK in H1 as (x & y & Hev & -> & ->).
  apply bind_OK in H as (m2 & l2 & l2' & H2 & H & ->).
  apply call_update_metrics_test_OK in H2 as (x' & y' & Hev' & -> & ->).
  apply bind_OK in H as (model' & l3 & l3' & H3 & H & ->).
  apply bind_OK in H as (stop & l4 & l4' & H4 & H & ->).
  unfold lift in H4. rewrite nan_detected_snoc in H4. injection H4 as <- <-.
  exists ctx, x, y, x', y'.
  destruct (np_isnan x' || np_isnan x).
  - apply bind_OK in H as ([] & l5 & l5' & _ & H & ->).
    unfold ret in H. injection H as <- _.
    exists [], [], [], []. auto.
  - apply epoch_loop_OK in H as (k & va & vb & vc & vd & ab & _ & _ & _ & _ & _
                                 & Hr & _).
    exists va, vb, vc, vd. subst metrics. auto.
Qed.

(** With a decorrelation method, whatever its name, the optimizers are the
    forward optimizer followed by a plain SGD over the decorrelation
    parameters with learning rate [decor_lr], whatever [optimizer_type]
    is; every training pass is given these two, in this order. *)
Theorem decorrelation_optimizer_is_sgd a ctx m :
  decorrelation_method a = Some m ->
  setup a = OK ctx ->
  l_optimizers ctx
  = [make_fwd_optimizer (optimizer_type a) (fwd_lr a);
     Some (SGD DecorParams (decor_lr a))]
  /\ forall e opts lf steps,
      In (EvTrain e opts lf steps) (snd (train_network a)) ->
      opts = [make_fwd_optimizer (optimizer_type a) (fwd_lr a);
              Some (SGD DecorParams (decor_lr a))].
Proof.
  intros Hm Hs. pose proof (setup_OK a ctx Hs) as (_ & Hopts & _).
  rewrite Hm in Hopts. unfold make_optimizers in Hopts. cbn in Hopts.
  split; [exact Hopts|].
  intros e opts lf steps Hin.
  pose proof (train_network_log a ctx Hs) as Hlog.
  rewrite Forall_forall in Hlog. apply list_elem_of_In in Hin.
  specialize (Hlog _ Hin). cbn in Hlog. destruct Hlog as (-> & _).
  exact Hopts.
Qed.

(** ** The entry point (lines 149-184) *)

(** [run] ends by [exit()] for the method "foldiak" and for no other
    configuration. *)
Theorem run_exits_only_for_foldiak cfg :
  fst (run cfg) = Exited <-> c_decorrelation_method cfg = Some "foldiak".
Proof.
  unfold run. split.
  - intros H.
    destruct (is_foldiak (normalize_method (c_decorrelation_method cfg))) eqn:Hf.
    + unfold is_foldiak, normalize_method in Hf.
      destruct (c_decorrelation_method cfg) as [s|]; [|discriminate].
      destruct (String.eqb s "None"); [discriminate|].
      apply String.eqb_eq in Hf. subst s. reflexivity.
    + exfalso. revert H.
      destruct (train_network _) as [[m|e] l]; discriminate.
  - intros ->. reflexivity.
Qed.

(** The method given as the string "None" is the method [None]: the two
    configurations give the same outcome and, after [wandb.init], the same
    events; they differ in the configuration that [wandb.init] is given,
    which still holds the string in the first. *)
Theorem run_none_string_is_none cfg :
  c_decorrelation_method cfg = Some "None" ->
  fst (run cfg) = fst (run (set_decorrelation_method cfg None))
  /\ tail (snd (run cfg)) = tail (snd (run (set_decorrelation_method cfg None)))
  /\ hd_error (snd (run cfg)) = Some (RunWandbInit cfg (c_wandb cfg))
  /\ hd_error (snd (run (set_decorrelation_method cfg None)))
     = Some (RunWandbInit (set_decorrelation_method cfg None) (c_wandb cfg)).
Proof.
  intros H. unfold run. rewrite H. cbn -[train_network].
  destruct (train_network _) as [[m|e] l]; repeat split; reflexivity.
Qed.

(** [train_network] is never called by [run] with the method "None" or
    "foldiak": the first is turned into [None], the second exits. *)
Theorem run_never_trains_none_string_or_foldiak cfg a log :
  In (RunTrainNetwork a log) (snd (run cfg)) ->
  decorrelation_method a <> Some "None"
  /\ decorrelation_method a <> Some "foldiak"
  /\ decorrelation_method a = normalize_method (c_decorrelation_method cfg)
  /\ log = snd (train_network a).
Proof.
  unfold run.
  destruct (is_foldiak (normalize_method (c_decorrelation_method cfg))) eqn:Hf.
  - cbn. intros [Hin|[]]. discriminate.
  - match goal with |- context [train_network ?x] => set (a0 := x) end.
    assert (Ha : In (RunTrainNetwork a log)
                   [RunTrainNetwork a0 (snd (train_network a0))] ->
                 a = a0 /\ log = snd (train_network a0)).
    { intros [[= -> ->]|[]]. auto. }
    intros Hin.
    assert (a = a0 /\ log = snd (train_network a0)) as [-> ->].
    { apply Ha. destruct (train_network a0) as [[m|e] l]; cbn in Hin |- *.
      - destruct Hin as [Hin|[Hin|[Hin|[]]]]; try discriminate. left. exact Hin.
      - destruct Hin as [Hin|[Hin|[]]]; try discriminate. left. exact Hin. }
    subst a0. cbn [decorrelation_method].
    repeat split.
    + destruct (c_decorrelation_method cfg) as [s|]; cbn; [|discriminate].
      destruct (String.eqb s "None") eqn:Hn; [discriminate|].
      intros [= ->]. discriminate.
    + intros Heq. rewrite Heq in Hf. discriminate.
Qed.

End PassProperties.

(** ** The "MSE" loss (lines 109-113) *)

Lemma same_shape_length {N : Numeric} (a : Tensor) : forall b : Tensor,
  same_shape a b = true -> length a = length b.
Proof.
  induction a as [|r a IH]; intros [|s b] H; try discriminate; [reflexivity|].
  cbn in H. apply andb_true_iff in H as [_ H]. cbn. f_equal. apply IH, H.
Qed.

(** On outputs and one-hot targets of one shape, the "MSE" loss gives one
    value per sample of the batch, whatever the integer labels are. *)
Theorem mse_loss_one_value_per_sample {N : Numeric} g
    (input : Tensor) (target : list Z) (onehot : Tensor) :
  make_loss_func "MSE" = Some g ->
  same_shape input onehot = true ->
  exists v, g input target onehot = OK v /\ length v = length input
            /\ forall target', g input target' onehot = OK v.
Proof.
  intros Hg Hshape. change (make_loss_func "MSE") with
    (Some (fun (input : Tensor) (target : list Z) (onehot : Tensor) =>
             match MSELoss_none input onehot with
             | OK t => OK (torch_sum_axis1 t)
             | Raise e => Raise e
             end)) in Hg.
  injection Hg as <-. unfold MSELoss_none. rewrite Hshape.
  eexists. split; [reflexivity|]. split; [|reflexivity].
  unfold torch_sum_axis1. rewrite length_map, length_zip_with.
  apply same_shape_length in Hshape. lia.
Qed.

(** ** Instances of the further properties on the scripted backends *)

Lemma negative_epochs_no_iteration_witness :
  nb_epochs (Scripted.args (-3) None) < 0
  /\ train_network (B := Scripted.backend Scripted.steady) (Scripted.args (-3) None)
     = (OK init_metric, []).
Proof.
  split; [cbn; lia|].
  eapply (negative_epochs_no_iteration (B := Scripted.backend Scripted.steady)).
  - cbn. lia.
  - reflexivity.
Defined.

Lemma evaluation_error_propagates_witness :
  exists ctx,
    setup (B := Faulty.backend) (Scripted.args 2 None) = OK ctx
    /\ train_network (B := Faulty.backend) (Scripted.args 2 None)
       = (Raise (BackendError 7), [EvUpdateMetrics "train" 0 (l_loss_func ctx)]).
Proof.
  eexists. split; [reflexivity|].
  apply (evaluation_error_propagates (B := Faulty.backend) (Scripted.args 2 None)).
  - reflexivity.
  - cbn. lia.
  - reflexivity.
Defined.

Lemma no_nan_runs_all_epochs_witness :
  ~ In (EvPrint nan_message) (snd Scripted.infinite_run)
  /\ forall phase metric (pm : gmap string (list float)) values,
      mk_metrics [infinity; 1%float] [0.5%float; 0.5%float]
        [1%float; 1%float] [0.5%float; 0.5%float] !! phase = Some pm ->
      pm !! metric = Some values ->
      Z.of_nat (length values) = nb_epochs (Scripted.args 1 None) + 1.
Proof.
  apply (no_nan_runs_all_epochs (B := Scripted.backend Scripted.infinite_first)
           (Scripted.args 1 None)).
  - cbn. lia.
  - vm_compute. reflexivity.
  - intros phase pm losses x Hp Hl Hin.
    destruct (mk_metrics_lookup _ _ _ _ _ _ _ _ Hp Hl) as [-> | [-> | [-> | ->]]];
      cbn in Hin; repeat (destruct Hin as [<-|Hin]; [reflexivity|]);
      destruct Hin.
Defined.

Lemma abort_message_iff_nan_witness :
  exists tl ta el ea,
    mk_metrics [nan] [0.5%float] [1%float] [0.5%float] = mk_metrics tl ta el ea
    /\ (In (EvPrint nan_message) (snd Scripted.nan_run)
        <-> exists (i : nat) x x',
            tl !! i = Some x /\ el !! i = Some x'
            /\ np_isnan x' || np_isnan x = true).
Proof.
  apply (abort_message_iff_nan (B := Scripted.backend Scripted.nan_first)
           (Scripted.args 2 None)).
  vm_compute. reflexivity.
Defined.

Lemma returned_sequences_have_one_length_witness :
  exists k : nat,
    (k <= Z.to_nat (nb_epochs (Scripted.args 2 None) + 1))%nat
    /\ forall phase metric (pm : gmap string (list float)) values,
        mk_metrics [nan] [0.5%float] [1%float] [0.5%float] !! phase = Some pm ->
        pm !! metric = Some values ->
        length values = k.
Proof.
  apply (returned_sequences_have_one_length
           (B := Scripted.backend Scripted.nan_first) (Scripted.args 2 None)
           _ (snd Scripted.nan_run)).
  vm_compute. reflexivity.
Defined.

Lemma training_pass_count_witness :
  exists tl ta el ea,
    mk_metrics [1%float; 1%float; 1%float] [0.5%float; 0.5%float; 0.5%float]
      [1%float; 1%float; 1%float] [0.5%float; 0.5%float; 0.5%float]
    = mk_metrics tl ta el ea
    /\ length (List.filter is_train_call (snd Scripted.steady_run))
       = Nat.min (length tl) (Z.to_nat (nb_epochs (Scripted.args 2 None))).
Proof.
  apply (training_pass_count (B := Scripted.backend Scripted.steady)
           (Scripted.args 2 None)).
  - cbn. lia.
  - vm_compute. reflexivity.
Defined.

Lemma first_evaluation_is_of_initial_model_witness :
  exists ctx x y x' y' tl ta el ea,
    setup (B := Scripted.backend Scripted.infinite_first) (Scripted.args 1 None)
    = OK ctx
    /\ evaluate (l_model ctx) (l_train_loader ctx) (l_loss_func ctx) = OK (x, y)
    /\ evaluate (l_model ctx) (l_test_loader ctx) (l_loss_func ctx) = OK (x', y')
    /\ mk_metrics [infinity; 1%float] [0.5%float; 0.5%float]
         [1%float; 1%float] [0.5%float; 0.5%float]
       = mk_metrics (x :: tl) (y :: ta) (x' :: el) (y' :: ea).
Proof.
  apply (first_evaluation_is_of_initial_model
           (B := Scripted.backend Scripted.infinite_first) (Scripted.args 1 None)
           _ (snd Scripted.infinite_run)).
  - cbn. lia.
  - vm_compute. reflexivity.
Defined.

Lemma decorrelation_optimizer_is_sgd_witness :
  exists ctx,
    setup (B := Scripted.backend Scripted.steady) (Scripted.args 1 (Some "copi"))
    = OK ctx
    /\ l_optimizers ctx
       = [Some (Adam FwdParams betas eps 1e-2%float);
          Some (SGD DecorParams 1e-3%float)].
Proof.
  eexists. split; [reflexivity|].
  refine (proj1 (decorrelation_optimizer_is_sgd
                   (B := Scripted.backend Scripted.steady)
                   (Scripted.args 1 (Some "copi")) _ "copi" _ _));
    reflexivity.
Defined.

Lemma run_none_string_is_none_witness :
  fst (run (B := Scripted.backend Scripted.steady) (Scripted.cfg (Some "None")))
  = fst (run (B := Scripted.backend Scripted.steady)
           (set_decorrelation_method (Scripted.cfg (Some "None")) None))
  /\ hd_error (snd (run (B := Scripted.backend Scripted.steady)
                      (Scripted.cfg (Some "None"))))
     = Some (RunWandbInit (Scripted.cfg (Some "None"))
               (c_wandb (Scripted.cfg (Some "None")))).
Proof.
  destruct (run_none_string_is_none (B := Scripted.backend Scripted.steady)
              (Scripted.cfg (Some "None")) eq_refl) as (H1 & _ & H3 & _).
  split; [exact H1|exact H3].
Defined.

Lemma run_never_trains_none_string_or_foldiak_witness :
  exists a log,
    In (RunTrainNetwork a log)
      (snd (run (B := Scripted.backend Scripted.steady) (Scripted.cfg (Some "None"))))
    /\ decorrelation_method a <> Some "None"
    /\ decorrelation_method a <> Some "foldiak"
    /\ decorrelation_method a
       = normalize_method (c_decorrelation_method (Scripted.cfg (Some "None")))
    /\ log = snd (train_network (B := Scripted.backend Scripted.steady) a).
Proof.
  assert (H : exists a log,
             In (RunTrainNetwork a log)
               (snd (run (B := Scripted.backend Scripted.steady)
                       (Scripted.cfg (Some "None"))))).
  { eexists _, _. vm_compute. right. left. reflexivity. }
  destruct H as (a & log & H). exists a, log. split; [exact H|].
  exact (run_never_trains_none_string_or_foldiak
           (B := Scripted.backend Scripted.steady) _ a log H).
Defined.

Lemma mse_loss_one_value_per_sample_witness :
  exists g v,
    make_loss_func (N := Scripted.numeric) "MSE" = Some g
    /\ g [[1; 2]; [0; 3]] [1; 1] [[0; 1]; [0; 1]] = OK v
    /\ length v = 2%nat.
Proof.
  eexists. 
  destruct (mse_loss_one_value_per_sample (N := Scripted.numeric) _
              [[1; 2]; [0; 3]] [1; 1] [[0; 1]; [0; 1]] eq_refl eq_refl)
    as (v & Hv & Hlen & _).
  exists v. split; [reflexivity|]. split; [exact Hv|exact Hlen].
Defined.

Lemma dataset_dimensions_witness :
  exists ctx,
    setup (B := Scripted.backend Scripted.steady)
      (Scripted.args_with 1 "CIFAR100" 3 "CCE" "Adam") = OK ctx
    /\ to_device (Backend := Scripted.backend Scripted.steady)
         (init_net 42 (32 * 32 * 3) 100 3 1000 1e-3%float None true) "cpu"
       = OK (l_model ctx).
Proof.
  eexists. split; [reflexivity|].
  refine (proj2 (proj2 (dataset_dimensions
                          (B := Scripted.backend Scripted.steady))
                   (Scripted.args_with 1 "CIFAR100" 3 "CCE" "Adam") _ "CIFAR100"
                   (32 * 32 * 3) 100 _ eq_refl eq_refl)).
  cbn. auto.
Defined.

Lemma network_sizes_in_table_witness :
  exists ctx in_size out_size,
    setup (B := Scripted.backend Scripted.steady)
      (Scripted.args_with 1 "TIN" 3 "CCE" "Adam") = OK ctx
    /\ In (in_size, out_size)
         [(28 * 28, 10); (32 * 32 * 3, 10); (32 * 32 * 3, 100); (64 * 64 * 3, 200)]
    /\ to_device (Backend := Scripted.backend Scripted.steady)
         (init_net 42 in_size out_size 3 1000 1e-3%float None true) "cpu"
       = OK (l_model ctx).
Proof.
  destruct (network_sizes_in_table (B := Scripted.backend Scripted.steady)
              (Scripted.args_with 1 "TIN" 3 "CCE" "Adam") _ eq_refl)
    as (i & o & Hin & Hm).
  eexists _, i, o. split; [reflexivity|]. split; [exact Hin|exact Hm].
Defined.

Lemma rejected_seed_raises_first_witness :
  seed (Scripted.seeded (-1)) < 0
  /\ exists ex,
      train_network (B := Scripted.backend Scripted.steady) (Scripted.seeded (-1))
      = (Raise ex, [])
      /\ (- 2 ^ 63 <= seed (Scripted.seeded (-1)) <= 2 ^ 64 - 1 -> ex = ValueError)
      /\ (seed (Scripted.seeded (-1)) < - 2 ^ 63
          \/ 2 ^ 64 - 1 < seed (Scripted.seeded (-1)) -> ex = RuntimeError).
Proof.
  split; [cbn; lia|].
  apply (rejected_seed_raises_first (B := Scripted.backend Scripted.steady)).
  left. cbn. lia.
Defined.

Lemma negative_decor_lr_raises_witness :
  train_network (B := Scripted.backend Scripted.steady) Scripted.negative_decor_lr
  = (Raise ValueError, []).
Proof.
  apply (negative_decor_lr_raises (B := Scripted.backend Scripted.steady)
           Scripted.negative_decor_lr [false] [true] 0%nat 0%nat "copi");
    reflexivity.
Defined.
